(** * A shallow embedding of the BookCatalog k6 benchmark scripts

    Two scripts are embedded: [src/benchmark.js] (module [Benchmark]) and its
    sibling [src/unnamed/part_000] (module [Part000]).  Both are k6
    load-test scripts: module-level code resolves the configuration, [setup]
    runs the warm-up, the default export is one create/read/update/delete
    unit, and [handleSummary] builds the end-of-run report.

    The scripts talk to three collaborators that are not part of the
    repository: the JavaScript built-ins, the k6 runtime (HTTP client, checks,
    sleeps, Trend metrics, console) and the service under test.  The built-ins
    the scripts rely on are written out in module [JS] after ECMA-262; the k6
    runtime is a state monad over a chronological event trace in module [K6];
    the service under test is an arbitrary function from the trace so far and
    the request to a response.  In this model every call of the runtime
    returns: the scripts contain no [throw], no [try] around a request and
    pass no option that makes a request raise.

    Conventions.
    - A JavaScript string is a [string] whose characters are the code units
      U+0000..U+00FF.
    - A JavaScript number that holds an integer ([parseInt] results, [__VU],
      [__ITER], [Date.now()]) is a [Z] or a [nat]; a number that holds a
      measurement (latencies, averages) is a rational [Q], and sums and
      quotients of measurements are the exact ones.  Binary64 rounds them:
      what is stated of the overall mean is stated of averages whose sums
      and mean binary64 holds exactly ([sums_exact]).
    - An integer inside a template literal is rendered in decimal, as
      JavaScript does below 10^21. *)

From Stdlib Require Import ZArith QArith Qabs Qround Lqa String Ascii List Lia.
From stdpp Require Import base option list gmap strings pretty.


(* ===================================================================== *)
(** * JavaScript built-ins used by the scripts *)
(* ===================================================================== *)

Module JS.

(** The values [Response.json(selector)] can hand back: [undefined] when the
    body is not JSON or the selector matches nothing, otherwise the JSON
    value found. *)
Inductive Value : Type :=
| VUndefined
| VNull
| VBool (b : bool)
| VNumber (q : Q)
| VString (s : string)
| VObject
| VArray.

(** ToBoolean: what [if (v)] and [v || w] test. *)
Definition truthy (v : Value) : bool :=
  match v with
  | VUndefined => false
  | VNull => false
  | VBool b => b
  | VNumber q => negb (Qeq_bool q 0)
  | VString s => negb (String.eqb s "")
  | VObject => true
  | VArray => true
  end.

(** [v !== null]. *)
Definition strict_ne_null (v : Value) : bool :=
  match v with
  | VNull => false
  | _ => true
  end.

(** A property read that may be [undefined] is an [option]; for strings
    [a || b] then keeps [a] unless it is [undefined] or empty. *)
Definition str_truthy (o : option string) : bool :=
  match o with
  | Some s => negb (String.eqb s "")
  | None => false
  end.

Definition or_else (a b : option string) : option string :=
  if str_truthy a then a else b.

(** [a || b] whose last operand is a string literal. *)
Definition or_default (a : option string) (d : string) : string :=
  match a with
  | Some s => if String.eqb s "" then d else s
  | None => d
  end.

(** The result of [parseInt]: [NaN] or an integer. *)
Inductive Int : Type :=
| NaN
| Num (n : Z).

(** [x > y] and [x < y] on numbers: every comparison with [NaN] is false. *)
Definition gt (x y : Int) : bool :=
  match x, y with
  | Num a, Num b => (b <? a)%Z
  | _, _ => false
  end.

Definition lt (x y : Int) : bool :=
  match x, y with
  | Num a, Num b => (a <? b)%Z
  | _, _ => false
  end.

(** Template-literal conversion of such a number. *)
Definition Int_to_string (x : Int) : string :=
  match x with
  | NaN => "NaN"
  | Num n => pretty n
  end.

(** White space and line terminators below U+0100. *)
Definition is_white (c : ascii) : bool :=
  match nat_of_ascii c with
  | 9 | 10 | 11 | 12 | 13 | 32 | 160 => true
  | _ => false
  end.

Fixpoint trimStart (s : string) : string :=
  match s with
  | String c s' => if is_white c then trimStart s' else s
  | EmptyString => EmptyString
  end.

Definition trimEnd (s : string) : string :=
  String.rev (trimStart (String.rev s)).

(** [String.prototype.trim]. *)
Definition trim (s : string) : string := trimEnd (trimStart s).

(** [s.startsWith(p)]. *)
Definition startsWith (p s : string) : bool := String.prefix p s.

(** [s.indexOf(c)] for a one-character needle; [None] is -1. *)
Fixpoint indexOf (c : ascii) (s : string) : option nat :=
  match s with
  | EmptyString => None
  | String d s' =>
      if Ascii.eqb c d then Some 0
      else match indexOf c s' with
           | Some i => Some (S i)
           | None => None
           end
  end.

(** [s.slice(0, i)] and [s.slice(i)] for [0 <= i <= s.length]. *)
Definition slice_to (i : nat) (s : string) : string := String.substring 0 i s.
Definition slice_from (i : nat) (s : string) : string :=
  String.substring i (String.length s - i) s.

Definition CR : ascii := ascii_of_nat 13.
Definition LF : ascii := ascii_of_nat 10.

(** [s.split(/\r?\n/)]: the pieces between the separators, a separator being
    a line feed together with the carriage return right before it, if any. *)
Fixpoint split_lines_go (cur : string) (s : string) : list string :=
  match s with
  | EmptyString => [String.rev cur]
  | String c s' =>
      if Ascii.eqb c LF then String.rev cur :: split_lines_go "" s'
      else if Ascii.eqb c CR then
        match s' with
        | String d s'' =>
            if Ascii.eqb d LF then String.rev cur :: split_lines_go "" s''
            else split_lines_go (String c cur) s'
        | EmptyString => split_lines_go (String c cur) s'
        end
      else split_lines_go (String c cur) s'
  end.

Definition split_lines (s : string) : list string := split_lines_go "" s.

(** The two characters of the class in [/^['dq]|['dq]$/g], where dq is the
    double quote (code 34). *)
Definition is_quote (c : ascii) : bool :=
  Ascii.eqb c "'"%char || Ascii.eqb c (ascii_of_nat 34).

(** [v.replace(/^[quote]|[quote]$/g, empty)]: one quote is removed at the
    start if there is one, and one at the end of what remains if there is
    one; the two need not match. *)
Definition strip_leading_quote (v : string) : string :=
  match v with
  | String c v' => if is_quote c then v' else v
  | EmptyString => EmptyString
  end.

Definition strip_trailing_quote (v : string) : string :=
  String.rev (strip_leading_quote (String.rev v)).

Definition strip_quotes (v : string) : string :=
  strip_trailing_quote (strip_leading_quote v).

(** ** parseInt(string) with no radix argument *)

Definition digit_value (c : ascii) : option Z :=
  let n := nat_of_ascii c in
  if (48 <=? n)%nat && (n <=? 57)%nat then Some (Z.of_nat n - 48)%Z
  else if (97 <=? n)%nat && (n <=? 122)%nat then Some (Z.of_nat n - 87)%Z
  else if (65 <=? n)%nat && (n <=? 90)%nat then Some (Z.of_nat n - 55)%Z
  else None.

Definition radix_digit (R : Z) (c : ascii) : option Z :=
  match digit_value c with
  | Some d => if (d <? R)%Z then Some d else None
  | None => None
  end.

(** The value of the longest prefix of radix-[R] digits; [acc] is [None]
    until a digit has been read. *)
Fixpoint parse_digits (R : Z) (acc : option Z) (s : string) : option Z :=
  match s with
  | String c s' =>
      match radix_digit R c with
      | Some d =>
          parse_digits R
            (Some (match acc with Some a => a * R + d | None => d end)%Z) s'
      | None => acc
      end
  | EmptyString => acc
  end.

Definition strip_sign (s : string) : Z * string :=
  match s with
  | String "-" r => ((-1)%Z, r)
  | String "+" r => (1%Z, r)
  | _ => (1%Z, s)
  end.

Definition strip_hex_prefix (s : string) : Z * string :=
  match s with
  | String "0" (String "x" r) => (16%Z, r)
  | String "0" (String "X" r) => (16%Z, r)
  | _ => (10%Z, s)
  end.

Definition parseInt (s : string) : Int :=
  let '(sign, s1) := strip_sign (trimStart s) in
  let '(R, s2) := strip_hex_prefix s1 in
  match parse_digits R None s2 with
  | Some m => Num (sign * m)
  | None => NaN
  end.

(** ** Number.prototype.toFixed(f)

    ECMA-262: for a finite [x], a minus sign is kept aside and [x] made
    non-negative; if [x >= 10^21] the digits are those of Number::toString;
    otherwise [n] is the integer nearest to [x * 10^f] (the larger of two),
    its decimal digits are padded on the left with zeros to [f + 1]
    characters, and a point is put before the last [f]. *)

Fixpoint zeros (k : nat) : string :=
  match k with
  | O => ""
  | S k' => String "0" (zeros k')
  end.

Definition nearest_scaled (f : nat) (x : Q) : Z :=
  Qfloor (x * inject_Z (10 ^ Z.of_nat f) + (1 # 2)).

Definition place_point (f : nat) (m : string) : string :=
  match f with
  | O => m
  | _ =>
      let k := String.length m in
      let m' := if (k <=? f)%nat then zeros (f + 1 - k) +:+ m else m in
      let k' := String.length m' in
      String.substring 0 (k' - f) m' +:+ "." +:+ String.substring (k' - f) f m'
  end.

Section ToFixed.

(** Number::toString on a non-negative number, used at or above [10^21]
    only; its exponential rendering is left to the caller. *)
Variable Number_toString : Q -> string.

Definition toFixed (f : nat) (x : Q) : string :=
  let s := if Qle_bool 0 x then "" else "-" in
  let x := Qabs x in
  let m :=
    if Qle_bool (inject_Z (10 ^ 21)) x then Number_toString x
    else place_point f (pretty (nearest_scaled f x)) in
  s +:+ m.

End ToFixed.

End JS.

(* ===================================================================== *)
(** * The k6 runtime as seen by the scripts *)
(* ===================================================================== *)

Module K6.

Inductive Method : Type := POST | GET | PUT | DEL.

(** The object passed to [JSON.stringify] as a request body. *)
Record Book : Type := mkBook { title : string; author : string }.

(** A request URL: [BASE_URL] itself, or the template [${BASE_URL}/${bookId}],
    kept as the pair of its two parts. *)
Inductive Url : Type :=
| UBase (base : string)
| UItem (base : string) (id : JS.Value).

Record Request : Type := mkRequest {
  method : Method;
  url : Url;
  body : option Book;
  headers : list (string * string)
}.

(** What the scripts read off a response: [r.status], [r.timings.duration]
    and [r.json('id')].  Reading the id is taken to hand back a value for
    every response; a response that k6 could not read a body for, on which
    [json] raises, is not part of this model. *)
Record Response : Type := mkResponse {
  status : Z;
  duration : Q;
  json_id : JS.Value
}.

(** The four Trend objects of the scripts. *)
Inductive Kind : Type := Create | Read | Update | Delete.

Definition trend_name (k : Kind) : string :=
  match k with
  | Create => "create_book_latency"
  | Read => "get_book_latency"
  | Update => "update_book_latency"
  | Delete => "delete_book_latency"
  end.

Global Instance Kind_eq_dec : EqDecision Kind.
Proof. solve_decision. Defined.

Global Instance Method_eq_dec : EqDecision Method.
Proof. solve_decision. Defined.

(** Everything a script does to the outside, in the order it does it. *)
Inductive Event : Type :=
| EHttp (r : Request)
| ESample (k : Kind) (d : Q)
| ECheck (name : string) (ok : bool)
| ESleep (seconds : Q)
| ELog (line : string).

Definition Trace : Type := list Event.

(** The service under test together with the network: any function of what
    has happened so far and of the request. *)
Definition Service : Type := Trace -> Request -> Response.

(** Script code: a state transformer over the trace. *)
Definition M (A : Type) : Type := Trace -> A * Trace.

Global Instance M_ret : MRet M := fun A (x : A) t => (x, t).
Global Instance M_bind : MBind M :=
  fun A B (f : A -> M B) (m : M A) t => let '(a, t') := m t in f a t'.

Definition emit (e : Event) : M unit := fun t => (tt, (t ++ [e])%list).

Definition run {A : Type} (m : M A) : Trace := snd (m []).

Section Runtime.

Variable service : Service.

Definition http_request (r : Request) : M Response :=
  fun t => (service t r, (t ++ [EHttp r])%list).

Definition http_post (u : Url) (b : option Book) (h : list (string * string))
  : M Response := http_request (mkRequest POST u b h).
Definition http_get (u : Url) (h : list (string * string)) : M Response :=
  http_request (mkRequest GET u None h).
Definition http_put (u : Url) (b : option Book) (h : list (string * string))
  : M Response := http_request (mkRequest PUT u b h).
Definition http_del (u : Url) (b : option Book) (h : list (string * string))
  : M Response := http_request (mkRequest DEL u b h).

End Runtime.

(** [trend.add(x)]. *)
Definition trend_add (k : Kind) (d : Q) : M unit := emit (ESample k d).

(** [sleep(seconds)]. *)
Definition sleep (seconds : Q) : M unit := emit (ESleep seconds).

(** [console.log(line)]. *)
Definition console_log (line : string) : M unit := emit (ELog line).

(** [check(val, sets)]: every named predicate is evaluated on [val] and its
    outcome recorded; the result tells whether all of them held. *)
Fixpoint check {A : Type} (val : A) (sets : list (string * (A -> bool)))
  : M bool :=
  match sets with
  | [] => mret true
  | (name, p) :: rest =>
      emit (ECheck name (p val)) ;;
      ok ← check val rest;
      mret (p val && ok)
  end.

(** ** Reading a trace *)

Definition requests (t : Trace) : list Request :=
  omap (fun e => match e with EHttp r => Some r | _ => None end) t.

Definition requests_of (m : Method) (t : Trace) : list Request :=
  filter (fun r => method r = m) (requests t).

(** The samples a Trend object holds. *)
Definition samples (k : Kind) (t : Trace) : list Q :=
  omap (fun e => match e with
                 | ESample k' d => if decide (k' = k) then Some d else None
                 | _ => None
                 end) t.

Definition all_samples (t : Trace) : list (Kind * Q) :=
  omap (fun e => match e with ESample k d => Some (k, d) | _ => None end) t.

Definition sleeps (t : Trace) : list Q :=
  omap (fun e => match e with ESleep s => Some s | _ => None end) t.

Definition logs (t : Trace) : list string :=
  omap (fun e => match e with ELog l => Some l | _ => None end) t.

Definition checks (t : Trace) : list (string * bool) :=
  omap (fun e => match e with ECheck n b => Some (n, b) | _ => None end) t.

(** ** The end-of-run summary handed to [handleSummary]

    [data.metrics] maps a metric name to its entry; the scripts read
    [entry.values.avg].  k6 lists a Trend only once it has received a sample,
    with [avg] the arithmetic mean of its samples. *)
Record Values : Type := mkValues { avg : Q }.
Record Metric : Type := mkMetric { values : option Values }.

Definition Qsum (l : list Q) : Q := fold_right Qplus 0%Q l.

Definition trend_avg (l : list Q) : Q :=
  (Qsum l / inject_Z (Z.of_nat (length l)))%Q.

Definition add_trend (t : Trace) (k : Kind) (m : gmap string Metric)
  : gmap string Metric :=
  match samples k t with
  | [] => m
  | l => <[trend_name k := mkMetric (Some (mkValues (trend_avg l)))]> m
  end.

Definition summary_metrics (t : Trace) : gmap string Metric :=
  foldr (add_trend t) ∅ [Create; Read; Update; Delete].


End K6.

(** A line break inside a template literal or a string literal. *)
Definition nl : string := String JS.LF "".

(** The [options] object both scripts export. *)
Record Scenario : Type := mkScenario {
  executor : string;
  vus : JS.Int;
  duration : string
}.

Record Options : Type := mkOptions {
  scenarios : list (string * Scenario);
  thresholds : list (string * list string)
}.

(** The module-level constants both scripts compute. *)
Record Config : Type := mkConfig {
  SERVICE_NAME : string;
  BASE_URL : string;
  VUS : JS.Int;
  DURATION : string;
  WARMUP_ITERATIONS : JS.Int;
  DATABASE_TYPE : string
}.

(** [for (let i = i0; i < bound; i++) body(i)]; the loop leaves through its
    test, [fuel] only makes the recursion structural. *)
Fixpoint for_loop (fuel : nat) (i : Z) (bound : JS.Int)
    (body : Z -> K6.M unit) : K6.M unit :=
  match fuel with
  | O => mret tt
  | S fuel' =>
      if JS.lt (JS.Num i) bound
      then body i ;; for_loop fuel' (i + 1)%Z bound body
      else mret tt
  end.

(** The number of values [i] with [0 <= i < bound]. *)
Definition trip_count (bound : JS.Int) : nat :=
  match bound with
  | JS.Num n => Z.to_nat n
  | JS.NaN => O
  end.

(* ===================================================================== *)
(** * src/benchmark.js *)
(* ===================================================================== *)

Module Benchmark.

Import K6.

(** [acc[key] = value] on the object built by [reduce], [value] a string:
    every key becomes an own property but [__proto__], which reaches the
    setter inherited from [Object.prototype]; that setter ignores a value
    that is neither an object nor null and defines nothing. *)
Definition assign (acc : gmap string string) (key value : string)
  : gmap string string :=
  if String.eqb key "__proto__" then acc else <[key := value]> acc.

(** The callback of [reduce] in [loadEnvFile]: one line of the file folded
    into the object built so far. *)
Definition parse_line (acc : gmap string string) (line : string)
  : gmap string string :=
  let trimmed := JS.trim line in
  if String.eqb trimmed "" || JS.startsWith "#" trimmed then acc
  else
    match JS.indexOf "="%char trimmed with
    | None => acc
    | Some idx =>
        let key := JS.trim (JS.slice_to idx trimmed) in
        let value :=
          JS.strip_quotes (JS.trim (JS.slice_from (idx + 1) trimmed)) in
        if negb (String.eqb key "") then assign acc key value else acc
    end.

(** [loadEnvFile(path)]; [open] is k6's file read, [None] when it throws. *)
Definition loadEnvFile (open : string -> option string) (path : string)
  : gmap string string :=
  match open path with
  | Some content => fold_left parse_line (JS.split_lines content) ∅
  | None => ∅
  end.

Definition envFile (open : string -> option string) : gmap string string :=
  loadEnvFile open ".env".

(** [__ENV.key || envFile.key || dflt]. *)
Definition setting (ENV file : gmap string string) (key dflt : string)
  : string :=
  JS.or_default (JS.or_else (ENV !! key) (file !! key)) dflt.

Definition config (ENV : gmap string string) (open : string -> option string)
  : Config :=
  let file := envFile open in
  {| SERVICE_NAME := setting ENV file "SERVICE_NAME" "bookcatalog-nd-app";
     BASE_URL := setting ENV file "BASE_URL" "http://localhost:8081/api/books";
     VUS := JS.parseInt (setting ENV file "VUS" "1");
     DURATION := setting ENV file "DURATION" "30s";
     WARMUP_ITERATIONS :=
       JS.parseInt (setting ENV file "WARMUP_ITERATIONS" "0");
     DATABASE_TYPE := setting ENV file "DATABASE_TYPE" "sqlite" |}.

(** The three [console.log] calls at module level. *)
Definition banner (c : Config) : M unit :=
  console_log ("Configured with VUS=" +:+ JS.Int_to_string (VUS c)
               +:+ ", DURATION=" +:+ DURATION c
               +:+ ", WARMUP_ITERATIONS="
               +:+ JS.Int_to_string (WARMUP_ITERATIONS c)
               +:+ ", DATABASE_TYPE=" +:+ DATABASE_TYPE c) ;;
  console_log ("Target Service: " +:+ SERVICE_NAME c) ;;
  console_log ("Base URL: " +:+ BASE_URL c).

Definition options (c : Config) : Options :=
  {| scenarios := [("test", mkScenario "constant-vus" (VUS c) (DURATION c))];
     thresholds := [("http_req_failed", ["rate<0.01"]);
                    ("http_req_duration", ["p(95)<2000"])] |}.

(** What [setup] returns and the default function receives. *)
Record SetupData : Type := mkSetupData { filename : string }.

Section Script.

Variable service : Service.
Variable c : Config.

Definition warmup_book (i : Z) : Book :=
  {| title := "Warmup Book " +:+ pretty i;
     author := "Warmup Author " +:+ pretty i |}.

Definition warmup_updatedBook (i : Z) : Book :=
  {| title := "Warmup Update " +:+ pretty i;
     author := "Warmup Update " +:+ pretty i |}.

Definition setup_headers : list (string * string) :=
  [("XDN", SERVICE_NAME c); ("Content-Type", "application/json")].

(** The body of the warm-up loop. *)
Definition warmup_iteration (i : Z) : M unit :=
  let book := warmup_book i in
  postResult ← http_post service (UBase (BASE_URL c)) (Some book) setup_headers;
  let bookId := json_id postResult in
  if JS.truthy bookId then
    http_get service (UItem (BASE_URL c) bookId) setup_headers ;;
    let updatedBook := warmup_updatedBook i in
    http_put service (UItem (BASE_URL c) bookId) (Some updatedBook)
      setup_headers ;;
    http_del service (UItem (BASE_URL c) bookId) None setup_headers ;;
    mret tt
  else mret tt.

(** [setup()]; [now] is what [Date.now()] returns. *)
Definition setup (now : Z) : M SetupData :=
  let timestamp := now in
  let csvFilename :=
    "bookcatalog_results_" +:+ DATABASE_TYPE c +:+ "_" +:+ pretty timestamp
    +:+ ".csv" in
  console_log (nl +:+ "=== Starting Benchmark ===") ;;
  console_log ("Target Log File: " +:+ csvFilename) ;;
  (if JS.gt (WARMUP_ITERATIONS c) (JS.Num 0) then
     console_log ("Starting warm-up with "
                  +:+ JS.Int_to_string (WARMUP_ITERATIONS c)
                  +:+ " iterations...") ;;
     for_loop (trip_count (WARMUP_ITERATIONS c)) 0 (WARMUP_ITERATIONS c)
       warmup_iteration ;;
     console_log "Warm-up complete."
   else mret tt) ;;
  mret {| filename := csvFilename |}.

Definition test_book (vu iter : nat) : Book :=
  {| title := "Test Book " +:+ pretty vu +:+ "_" +:+ pretty iter;
     author := "Test Author " +:+ pretty vu +:+ "_" +:+ pretty iter |}.

Definition test_updatedBook (vu iter : nat) : Book :=
  {| title := "Updated Test Book " +:+ pretty vu +:+ "_" +:+ pretty iter;
     author := "Updated Test Author " +:+ pretty vu +:+ "_" +:+ pretty iter |}.

Definition test_headers (data : SetupData) : list (string * string) :=
  [("XDN", SERVICE_NAME c); ("Content-Type", "application/json");
   ("X-Log-Filename", filename data)].

(** The default export: one measured unit; [vu] and [iter] are the globals
    [__VU] and [__ITER]. *)
Definition default (vu iter : nat) (data : SetupData) : M unit :=
  let book := test_book vu iter in
  let headers := test_headers data in
  postResponse ← http_post service (UBase (BASE_URL c)) (Some book) headers;
  trend_add Create (duration postResponse) ;;
  check postResponse
    [("POST status is 200", fun r => (status r =? 200)%Z);
     ("POST response has ID", fun r => JS.strict_ne_null (json_id r))] ;;
  let bookId := json_id postResponse in
  if JS.truthy bookId then
    sleep (1 # 10) ;;
    getResponse ← http_get service (UItem (BASE_URL c) bookId) headers;
    trend_add Read (duration getResponse) ;;
    check getResponse [("GET status is 200", fun r => (status r =? 200)%Z)] ;;
    sleep (1 # 10) ;;
    let updatedBook := test_updatedBook vu iter in
    putResponse ← http_put service (UItem (BASE_URL c) bookId)
                    (Some updatedBook) headers;
    trend_add Update (duration putResponse) ;;
    check putResponse [("PUT status is 200", fun r => (status r =? 200)%Z)] ;;
    sleep (1 # 10) ;;
    deleteResponse ← http_del service (UItem (BASE_URL c) bookId) None headers;
    trend_add Delete (duration deleteResponse) ;;
    check deleteResponse
      [("DELETE status is 200", fun r => (status r =? 200)%Z)] ;;
    sleep (1 # 10)
  else mret tt.

(** [handleSummary(data)]; [textSummary] is the imported jslib renderer,
    applied to the summary data. *)
Definition handleSummary {D : Type} (textSummary : D -> string) (data : D)
  : M (gmap string string) :=
  console_log (nl +:+ "=== BookCatalog Benchmark Summary ===") ;;
  console_log ("VUs: " +:+ JS.Int_to_string (VUS c) +:+ ", Duration: "
               +:+ DURATION c) ;;
  mret {[ "stdout" := textSummary data ]}.

End Script.

End Benchmark.

(* ===================================================================== *)
(** * src/unnamed/part_000 *)
(* ===================================================================== *)

Module Part000.

Import K6.

(** [__ENV.key || dflt]. *)
Definition setting (ENV : gmap string string) (key dflt : string) : string :=
  JS.or_default (ENV !! key) dflt.

Definition config (ENV : gmap string string) : Config :=
  {| SERVICE_NAME := setting ENV "SERVICE_NAME" "bookcatalog-nd-app";
     BASE_URL := setting ENV "BASE_URL" "http://localhost:8080/api/books";
     VUS := JS.parseInt (setting ENV "VUS" "1");
     DURATION := setting ENV "DURATION" "30s";
     WARMUP_ITERATIONS := JS.parseInt (setting ENV "WARMUP_ITERATIONS" "0");
     DATABASE_TYPE := setting ENV "DATABASE_TYPE" "sqlite" |}.

Definition options (c : Config) : Options :=
  {| scenarios := [("test", mkScenario "constant-vus" (VUS c) (DURATION c))];
     thresholds := [("http_req_failed", ["rate<0.01"]);
                    ("http_req_duration", ["p(95)<2000"])] |}.

Section Script.

Variable service : Service.
Variable c : Config.

Definition warmup_book (i : Z) : Book :=
  {| title := "Warmup Book " +:+ pretty i;
     author := "Warmup Author " +:+ pretty i |}.

Definition warmup_updatedBook (i : Z) : Book :=
  {| title := "Updated Warmup Book " +:+ pretty i;
     author := "Updated Warmup Author " +:+ pretty i |}.

Definition headers : list (string * string) :=
  [("XDN", SERVICE_NAME c); ("Content-Type", "application/json")].

(** The body of the warm-up loop. *)
Definition warmup_iteration (i : Z) : M unit :=
  console_log ("Warm-up progress: " +:+ pretty i +:+ "/"
               +:+ JS.Int_to_string (WARMUP_ITERATIONS c)) ;;
  let book := warmup_book i in
  postResult ← http_post service (UBase (BASE_URL c)) (Some book) headers;
  check postResult
    [("Warm-up POST status is 200", fun r => (status r =? 200)%Z)] ;;
  let bookId := json_id postResult in
  if JS.truthy bookId then
    sleep (1 # 10) ;;
    getResult ← http_get service (UItem (BASE_URL c) bookId) headers;
    check getResult
      [("Warm-up GET status is 200", fun r => (status r =? 200)%Z)] ;;
    sleep (1 # 10) ;;
    let updatedBook := warmup_updatedBook i in
    putResult ← http_put service (UItem (BASE_URL c) bookId)
                  (Some updatedBook) headers;
    check putResult
      [("Warm-up PUT status is 200", fun r => (status r =? 200)%Z)] ;;
    sleep (1 # 10) ;;
    deleteResult ← http_del service (UItem (BASE_URL c) bookId) None headers;
    check deleteResult
      [("Warm-up DELETE status is 200", fun r => (status r =? 200)%Z)] ;;
    sleep (1 # 10)
  else mret tt.

(** [setup()]; it returns the empty object. *)
Definition setup : M unit :=
  console_log ("Starting warm-up with "
               +:+ JS.Int_to_string (WARMUP_ITERATIONS c) +:+ " iterations") ;;
  for_loop (trip_count (WARMUP_ITERATIONS c)) 0 (WARMUP_ITERATIONS c)
    warmup_iteration ;;
  console_log "Warm-up complete. Starting actual test." ;;
  mret tt.

Definition test_book (vu iter : nat) : Book :=
  {| title := "Test Book " +:+ pretty vu +:+ "_" +:+ pretty iter;
     author := "Test Author " +:+ pretty vu +:+ "_" +:+ pretty iter |}.

Definition test_updatedBook (vu iter : nat) : Book :=
  {| title := "Updated Test Book " +:+ pretty vu +:+ "_" +:+ pretty iter;
     author := "Updated Test Author " +:+ pretty vu +:+ "_" +:+ pretty iter |}.

(** The default export: one measured unit; [vu] and [iter] are the globals
    [__VU] and [__ITER]. *)
Definition default (vu iter : nat) : M unit :=
  let book := test_book vu iter in
  postResponse ← http_post service (UBase (BASE_URL c)) (Some book) headers;
  trend_add Create (duration postResponse) ;;
  check postResponse
    [("POST status is 200", fun r => (status r =? 200)%Z);
     ("POST response has ID", fun r => JS.strict_ne_null (json_id r))] ;;
  let bookId := json_id postResponse in
  if JS.truthy bookId then
    sleep (1 # 10) ;;
    getResponse ← http_get service (UItem (BASE_URL c) bookId) headers;
    trend_add Read (duration getResponse) ;;
    check getResponse [("GET status is 200", fun r => (status r =? 200)%Z)] ;;
    sleep (1 # 10) ;;
    let updatedBook := test_updatedBook vu iter in
    putResponse ← http_put service (UItem (BASE_URL c) bookId)
                    (Some updatedBook) headers;
    trend_add Update (duration putResponse) ;;
    check putResponse [("PUT status is 200", fun r => (status r =? 200)%Z)] ;;
    sleep (1 # 10) ;;
    deleteResponse ← http_del service (UItem (BASE_URL c) bookId) None headers;
    trend_add Delete (duration deleteResponse) ;;
    check deleteResponse
      [("DELETE status is 200", fun r => (status r =? 200)%Z)] ;;
    sleep (1 # 10)
  else mret tt.

(** One of the four [if (data.metrics.m && data.metrics.m.values) ... else
    console.log(warning)] blocks of [handleSummary]: the average read, or
    the initial 0 kept and the warning logged. *)
Definition read_avg (metrics : gmap string Metric) (name warning : string)
  : M Q :=
  match metrics !! name with
  | Some m =>
      match values m with
      | Some v => mret (avg v)
      | None => console_log warning ;; mret 0%Q
      end
  | None => console_log warning ;; mret 0%Q
  end.

Variable Number_toString : Q -> string.

Definition csvHeader : string :=
  "get_latency,create_latency,update_latency,delete_latency,overall_latency"
  +:+ nl.

(** [handleSummary(data)]; [metrics] is [data.metrics] and [now] is what
    [Date.now()] returns.  [overallLatency] is the exact sum and quotient;
    the script computes them in binary64, which gives the same number
    whenever it can hold each partial sum and the quotient. *)
Definition handleSummary (metrics : gmap string Metric) (now : Z)
  : M (gmap string string) :=
  let fixed2 := JS.toFixed Number_toString 2 in
  avgGetLatency ← read_avg metrics "get_book_latency"
    "Warning: GET latency metrics not available";
  avgCreateLatency ← read_avg metrics "create_book_latency"
    "Warning: CREATE latency metrics not available";
  avgUpdateLatency ← read_avg metrics "update_book_latency"
    "Warning: UPDATE latency metrics not available";
  avgDeleteLatency ← read_avg metrics "delete_book_latency"
    "Warning: DELETE latency metrics not available";
  let overallLatency :=
    ((avgGetLatency + avgCreateLatency + avgUpdateLatency + avgDeleteLatency)
     / 4)%Q in
  let csvRow :=
    fixed2 avgGetLatency +:+ "," +:+ fixed2 avgCreateLatency +:+ ","
    +:+ fixed2 avgUpdateLatency +:+ "," +:+ fixed2 avgDeleteLatency +:+ ","
    +:+ fixed2 overallLatency +:+ nl in
  console_log (nl +:+ "=== BookCatalog Benchmark Results ===") ;;
  console_log ("GET avg: " +:+ fixed2 avgGetLatency +:+ "ms") ;;
  console_log ("CREATE avg: " +:+ fixed2 avgCreateLatency +:+ "ms") ;;
  console_log ("UPDATE avg: " +:+ fixed2 avgUpdateLatency +:+ "ms") ;;
  console_log ("DELETE avg: " +:+ fixed2 avgDeleteLatency +:+ "ms") ;;
  console_log ("Overall: " +:+ fixed2 overallLatency +:+ "ms") ;;
  let filename :=
    "bookcatalog_results_" +:+ DATABASE_TYPE c +:+ "_" +:+ pretty now
    +:+ ".csv" in
  mret (<[filename := csvHeader +:+ csvRow]>
          {[ "stdout" := "BookCatalog benchmark complete" ]}).

End Script.

End Part000.

(* ===================================================================== *)
(** * Vocabulary of the statements *)
(* ===================================================================== *)

(** ** The shape of what a unit does *)

(** An event without its payload. *)
Inductive Tag : Type :=
| THttp (m : K6.Method)
| TSample (k : K6.Kind)
| TCheck (name : string)
| TSleep (seconds : Q)
| TLog.

Definition tag (e : K6.Event) : Tag :=
  match e with
  | K6.EHttp r => THttp (K6.method r)
  | K6.ESample k _ => TSample k
  | K6.ECheck n _ => TCheck n
  | K6.ESleep s => TSleep s
  | K6.ELog _ => TLog
  end.

(** The trace a script leaves when started after [t0]. *)
Definition exec {A : Type} (m : K6.M A) (t0 : K6.Trace) : K6.Trace :=
  snd (m t0).

(** The tags of a unit that goes through its four steps, and of one that
    stops after the create step. *)
Definition full_unit_tags : list Tag :=
  [THttp K6.POST; TSample K6.Create; TCheck "POST status is 200";
   TCheck "POST response has ID"; TSleep (1 # 10);
   THttp K6.GET; TSample K6.Read; TCheck "GET status is 200"; TSleep (1 # 10);
   THttp K6.PUT; TSample K6.Update; TCheck "PUT status is 200";
   TSleep (1 # 10);
   THttp K6.DEL; TSample K6.Delete; TCheck "DELETE status is 200";
   TSleep (1 # 10)].

Definition create_only_tags : list Tag :=
  [THttp K6.POST; TSample K6.Create; TCheck "POST status is 200";
   TCheck "POST response has ID"].

(** ** The two scripts side by side *)

Inductive Script : Type := benchmark_js | part_000.

(** The default export of a script; [data] is what its [setup] returned,
    which only [benchmark_js] reads. *)
Definition default_of (s : Script) (service : K6.Service) (c : Config)
    (vu iter : nat) (data : Benchmark.SetupData) : K6.M unit :=
  match s with
  | benchmark_js => Benchmark.default service c vu iter data
  | part_000 => Part000.default service c vu iter
  end.

(** The create request a unit starts with. *)
Definition create_request_of (s : Script) (c : Config) (vu iter : nat)
    (data : Benchmark.SetupData) : K6.Request :=
  match s with
  | benchmark_js =>
      K6.mkRequest K6.POST (K6.UBase (BASE_URL c))
        (Some (Benchmark.test_book vu iter)) (Benchmark.test_headers c data)
  | part_000 =>
      K6.mkRequest K6.POST (K6.UBase (BASE_URL c))
        (Some (Part000.test_book vu iter)) (Part000.headers c)
  end.

(** The [setup] export of a script, its return value dropped. *)
Definition setup_of (s : Script) (service : K6.Service) (c : Config)
    (now : Z) : K6.M unit :=
  match s with
  | benchmark_js => Benchmark.setup service c now ;; mret tt
  | part_000 => Part000.setup service c
  end.

Definition count_method (m : K6.Method) (ev : K6.Trace) : nat :=
  length (K6.requests_of m ev).

(** ** Reading tags, counting requests *)

Definition tag_methods (l : list Tag) : list K6.Method :=
  omap (fun x => match x with THttp m => Some m | _ => None end) l.

Definition tag_kinds (l : list Tag) : list K6.Kind :=
  omap (fun x => match x with TSample k => Some k | _ => None end) l.

Definition tag_sleeps (l : list Tag) : list Q :=
  omap (fun x => match x with TSleep s => Some s | _ => None end) l.

(** What one unit adds to the trace, for either script: the tags of its
    events, its first sample and the outcome of the identifier check. *)
Definition unit_spec (ev : K6.Trace) (post : K6.Response) : Prop :=
  map tag ev =
    (if JS.truthy (K6.json_id post) then full_unit_tags else create_only_tags)
  /\ head (K6.all_samples ev) = Some (K6.Create, K6.duration post)
  /\ K6.checks ev !! 1%nat =
       Some ("POST response has ID", JS.strict_ne_null (K6.json_id post)).

(** The identifiers of C10: the number 0, the empty string, and no
    identifier at all. *)
Definition zero_empty_or_missing (v : JS.Value) : Prop :=
  (exists q, v = JS.VNumber q /\ (q == 0)%Q) \/ v = JS.VString ""
  \/ v = JS.VUndefined.



Definition is_digit (ch : ascii) : bool :=
  let n := nat_of_ascii ch in (48 <=? n)%nat && (n <=? 57)%nat.

Fixpoint all_digits (s : string) : bool :=
  match s with
  | EmptyString => true
  | String ch s' => is_digit ch && all_digits s'
  end.

(** [data.metrics.name.values.avg] when both objects are there. *)
Definition metric_avg (metrics : gmap string K6.Metric) (name : string)
  : option Q :=
  match metrics !! name with
  | Some m => match K6.values m with
              | Some v => Some (K6.avg v)
              | None => None
              end
  | None => None
  end.

Definition avg_or_zero (metrics : gmap string K6.Metric) (k : K6.Kind) : Q :=
  match metric_avg metrics (K6.trend_name k) with
  | Some q => q
  | None => 0%Q
  end.

Definition warning_of (k : K6.Kind) : string :=
  match k with
  | K6.Read => "Warning: GET latency metrics not available"
  | K6.Create => "Warning: CREATE latency metrics not available"
  | K6.Update => "Warning: UPDATE latency metrics not available"
  | K6.Delete => "Warning: DELETE latency metrics not available"
  end.

Definition warning_events (metrics : gmap string K6.Metric) (k : K6.Kind)
  : K6.Trace :=
  match metric_avg metrics (K6.trend_name k) with
  | Some _ => []
  | None => [K6.ELog (warning_of k)]
  end.

(** The unweighted mean of the four averages, a missing one counting 0. *)
Definition mean_of_averages (metrics : gmap string K6.Metric) : Q :=
  ((avg_or_zero metrics K6.Read + avg_or_zero metrics K6.Create
    + avg_or_zero metrics K6.Update + avg_or_zero metrics K6.Delete) / 4)%Q.

(** [x] is a binary64 number of magnitude below 2^53: a fraction m / 2^k
    with |m| < 2^53 and k <= 1074. *)
Definition binary64_small (x : Q) : bool :=
  let r := Qred x in
  let d := Zpos (Qden r) in
  (2 ^ Z.log2 d =? d)%Z && (Z.log2 d <=? 1074)%Z
  && (Z.abs (Qnum r) <? 2 ^ 53)%Z.

(** The four averages, the sums [handleSummary] forms from them from left
    to right and their quotient by 4 are binary64 numbers: the additions and
    the division of [overallLatency] round nothing away. *)
Definition sums_exact (metrics : gmap string K6.Metric) : Prop :=
  let g := avg_or_zero metrics K6.Read in
  let cr := avg_or_zero metrics K6.Create in
  let u := avg_or_zero metrics K6.Update in
  let d := avg_or_zero metrics K6.Delete in
  binary64_small g = true /\ binary64_small cr = true
  /\ binary64_small u = true /\ binary64_small d = true
  /\ binary64_small (g + cr) = true
  /\ binary64_small (g + cr + u) = true
  /\ binary64_small (g + cr + u + d) = true
  /\ binary64_small ((g + cr + u + d) / 4) = true.

(** The name of the report file. *)
Definition report_name (c : Config) (now : Z) : string :=
  "bookcatalog_results_" +:+ DATABASE_TYPE c +:+ "_" +:+ pretty now +:+ ".csv".

(** A service with the latencies of the scenario of the specification:
    every call answers 200, a create takes 10 ms and returns id 7, a read 20
    ms, an update 30 ms and a delete 40 ms. *)
Definition scenario_service : K6.Service :=
  fun _ r =>
    match K6.method r with
    | K6.POST => K6.mkResponse 200 10 (JS.VNumber 7)
    | K6.GET => K6.mkResponse 200 20 JS.VUndefined
    | K6.PUT => K6.mkResponse 200 30 JS.VUndefined
    | K6.DEL => K6.mkResponse 200 40 JS.VUndefined
    end.

(** Three iterations of worker 1 of [part_000] under the defaults. *)
Definition scenario_trace : K6.Trace :=
  let c := Part000.config ∅ in
  K6.run (Part000.default scenario_service c 1 0 ;;
          Part000.default scenario_service c 1 1 ;;
          Part000.default scenario_service c 1 2).

Definition no_exponent : Q -> string := fun _ => "".

(** The last two digits of [n] and what stands before them. *)
Definition hundredths (n : N) : string :=
  String (pretty_N_char ((n `div` 10) `mod` 10))
    (String (pretty_N_char (n `mod` 10)) "").

Definition in_range (x : Q) : Prop := (0 <= x)%Q /\ (x < inject_Z (10 ^ 21))%Q.

(** The hundredths nearest to [x], as a natural number. *)
Definition cents (x : Q) : N := Z.to_N (JS.nearest_scaled 2 x).


(** The data row of the report. *)
Definition report_row (ts : Q -> string) (metrics : gmap string K6.Metric)
  : string :=
  let fixed2 := JS.toFixed ts 2 in
  fixed2 (avg_or_zero metrics K6.Read) +:+ "," +:+
  fixed2 (avg_or_zero metrics K6.Create) +:+ "," +:+
  fixed2 (avg_or_zero metrics K6.Update) +:+ "," +:+
  fixed2 (avg_or_zero metrics K6.Delete) +:+ "," +:+
  fixed2 (mean_of_averages metrics) +:+ nl.

(** The lines of the console block. *)
Definition report_lines (ts : Q -> string) (metrics : gmap string K6.Metric)
  : list string :=
  let fixed2 := JS.toFixed ts 2 in
  [nl +:+ "=== BookCatalog Benchmark Results ===";
   "GET avg: " +:+ fixed2 (avg_or_zero metrics K6.Read) +:+ "ms";
   "CREATE avg: " +:+ fixed2 (avg_or_zero metrics K6.Create) +:+ "ms";
   "UPDATE avg: " +:+ fixed2 (avg_or_zero metrics K6.Update) +:+ "ms";
   "DELETE avg: " +:+ fixed2 (avg_or_zero metrics K6.Delete) +:+ "ms";
   "Overall: " +:+ fixed2 (mean_of_averages metrics) +:+ "ms"].

(** The mean over all raw samples of a trace, whatever their kind. *)
Definition global_mean (t : K6.Trace) : Q :=
  K6.trend_avg (map snd (K6.all_samples t)).

(** A service like [scenario_service] that hands out an id for the very
    first request only. *)
Definition first_only_service : K6.Service :=
  fun t r =>
    match K6.method r, t with
    | K6.POST, [] => K6.mkResponse 200 10 (JS.VNumber 7)
    | K6.POST, _ => K6.mkResponse 200 10 JS.VUndefined
    | K6.GET, _ => K6.mkResponse 200 20 JS.VUndefined
    | K6.PUT, _ => K6.mkResponse 200 30 JS.VUndefined
    | K6.DEL, _ => K6.mkResponse 200 40 JS.VUndefined
    end.

(** Two iterations of worker 1 of [part_000] against it: a full unit, then
    a unit that stops after its create step. *)
Definition uneven_trace : K6.Trace :=
  let c := Part000.config ∅ in
  K6.run (Part000.default first_only_service c 1 0 ;;
          Part000.default first_only_service c 1 1).

Definition dq : string := String (ascii_of_nat 34) "".

(** A configuration file with a comment, a blank line, quoted values, an
    empty value, a line without an equals sign and a line without a key. *)
Definition sample_env_file : string :=
  "# settings" +:+ nl +:+
  "SERVICE_NAME=" +:+ dq +:+ "svc" +:+ dq +:+ String JS.CR nl +:+
  "VUS=4" +:+ nl +:+
  nl +:+
  "  DURATION = '10s'  " +:+ nl +:+
  "DATABASE_TYPE=" +:+ nl +:+
  "NOEQ" +:+ nl +:+
  "=novalue" +:+ nl +:+
  "  # WARMUP_ITERATIONS=3" +:+ nl +:+
  "VUS=5".

Definition sample_open (path : string) : option string :=
  if String.eqb path ".env" then Some sample_env_file else None.

(** A value that is there and not empty. *)
Definition nonempty (o : option string) : option string :=
  match o with
  | Some v => if String.eqb v "" then None else Some v
  | None => None
  end.



(** Characters a key is made of here: no white space, no equals sign, no
    hash. *)
Definition plain (ch : ascii) : bool :=
  negb (JS.is_white ch) && negb (Ascii.eqb "="%char ch)
  && negb (Ascii.eqb "#"%char ch).

Fixpoint all_plain (s : string) : bool :=
  match s with
  | EmptyString => true
  | String ch s' => plain ch && all_plain s'
  end.

(** The constants of benchmark.js when nothing is set anywhere. *)
Definition benchmark_defaults : Config :=
  {| SERVICE_NAME := "bookcatalog-nd-app";
     BASE_URL := "http://localhost:8081/api/books";
     VUS := JS.Num 1;
     DURATION := "30s";
     WARMUP_ITERATIONS := JS.Num 0;
     DATABASE_TYPE := "sqlite" |}.

(** The run up to the end of its first unit: the module-level code, the
    warm-up, then iteration 0 of worker 1. *)
Definition first_unit (s : Script) (service : K6.Service) (c : Config)
    (now : Z) : K6.M unit :=
  match s with
  | benchmark_js =>
      Benchmark.banner c ;;
      data ← Benchmark.setup service c now;
      Benchmark.default service c 1 0 data
  | part_000 =>
      Part000.setup service c ;;
      Part000.default service c 1 0
  end.

(** A service whose responses carry no id. *)
Definition silent_service : K6.Service :=
  fun _ _ => K6.mkResponse 200 10 JS.VUndefined.



(** The configuration of benchmark.js with WARMUP_ITERATIONS set to abc. *)
Definition warmup_abc : Config :=
  Benchmark.config {[ "WARMUP_ITERATIONS" := "abc" ]} (fun _ => None).

(** ** Invariants of what a script adds to the trace *)

(** A script that, from any trace, adds events satisfying [P]. *)
Definition emits {A : Type} (P : K6.Trace -> Prop) (m : K6.M A) : Prop :=
  forall t0, exists ev, exec m t0 = t0 ++ ev /\ P ev.

(** Properties of event lists that hold of nothing and of concatenations. *)
Class Additive (P : K6.Trace -> Prop) : Prop := {
  additive_nil : P [];
  additive_app : forall a b, P a -> P b -> P (a ++ b)
}.

(** The follow-up requests come together or not at all. *)
Definition balanced (ev : K6.Trace) : Prop :=
  count_method K6.GET ev = count_method K6.PUT ev /\
  count_method K6.PUT ev = count_method K6.DEL ev /\
  (count_method K6.GET ev <= count_method K6.POST ev)%nat.

(** Requests and log lines only. *)
Definition silent (ev : K6.Trace) : Prop :=
  K6.sleeps ev = [] /\ K6.checks ev = [] /\ K6.all_samples ev = [].

(** One check per request, and four pauses per completed cycle. *)
Definition paced (ev : K6.Trace) : Prop :=
  length (K6.sleeps ev) = (4 * count_method K6.GET ev)%nat /\
  length (K6.checks ev) = length (K6.requests ev).

Definition url_base (u : K6.Url) : string :=
  match u with
  | K6.UBase b => b
  | K6.UItem b _ => b
  end.

(** A request to the configured endpoint, with the service header and the
    JSON content type. *)
Definition addressed (c : Config) (r : K6.Request) : Prop :=
  url_base (K6.url r) = BASE_URL c /\
  In ("XDN", SERVICE_NAME c) (K6.headers r) /\
  In ("Content-Type", "application/json") (K6.headers r).

Definition all_addressed (c : Config) (ev : K6.Trace) : Prop :=
  Forall (addressed c) (K6.requests ev).

(** ** What a unit asks and what it is answered *)

(** The responses the service gave to the requests of [ev], a list of events
    added after [t]: each request is answered on the trace as it stood when
    the request was issued. *)
Fixpoint answers (service : K6.Service) (t : K6.Trace) (ev : K6.Trace)
  : list K6.Response :=
  match ev with
  | [] => []
  | e :: ev' =>
      match e with
      | K6.EHttp r => service t r :: answers service (t ++ [e]) ev'
      | _ => answers service (t ++ [e]) ev'
      end
  end.

(** The outcomes of the checks on the status, in order. *)
Definition status_checks (ev : K6.Trace) : list bool :=
  omap (fun nb : string * bool =>
          if String.eqb (fst nb) "POST response has ID" then None
          else Some (snd nb))
       (K6.checks ev).

Definition updated_book_of (s : Script) (vu iter : nat) : K6.Book :=
  match s with
  | benchmark_js => Benchmark.test_updatedBook vu iter
  | part_000 => Part000.test_updatedBook vu iter
  end.

Definition book_of (s : Script) (vu iter : nat) : K6.Book :=
  match s with
  | benchmark_js => Benchmark.test_book vu iter
  | part_000 => Part000.test_book vu iter
  end.

(** The four requests of a unit whose create request was answered with
    [id]. *)
Definition unit_requests (s : Script) (c : Config) (vu iter : nat)
    (data : Benchmark.SetupData) (id : JS.Value) : list K6.Request :=
  let q := create_request_of s c vu iter data in
  let h := K6.headers q in
  let item := K6.UItem (BASE_URL c) id in
  [q;
   K6.mkRequest K6.GET item None h;
   K6.mkRequest K6.PUT item (Some (updated_book_of s vu iter)) h;
   K6.mkRequest K6.DEL item None h].

(** A service whose create responses carry a JSON null as id. *)
Definition null_service : K6.Service :=
  fun _ _ => K6.mkResponse 200 10 JS.VNull.

(** ** Settings and the configuration file *)

(** What may follow the digits without being read: nothing, or something
    that starts with neither a decimal digit nor an x. *)
Definition stops_number (tail : string) : Prop :=
  match tail with
  | String ch _ =>
      JS.radix_digit 10 ch = None /\ ch <> "x"%char /\ ch <> "X"%char
  | EmptyString => True
  end.

(** A string without a line feed. *)
Fixpoint no_LF (s : string) : bool :=
  match s with
  | EmptyString => true
  | String ch s' => negb (Ascii.eqb ch JS.LF) && no_LF s'
  end.

(** No white space at either end. *)
Definition head_white (s : string) : bool :=
  match s with
  | String ch _ => JS.is_white ch
  | EmptyString => false
  end.

Definition edge_clean (s : string) : bool :=
  negb (head_white s) && negb (head_white (String.rev s)).

(** What the keys of a parsed file have in common. *)
Definition key_ok (k : string) : Prop :=
  k <> "" /\ JS.indexOf "="%char k = None /\ JS.trim k = k.

(** The file system in which the configuration file reads [content]. *)
Definition file_with (content : string) : string -> option string :=
  fun _ => Some content.

(** [cell] is the decimal writing, with two digits after the point, of the
    hundredth nearest to [x], the upper one of two. *)
Definition rounds_to (x : Q) (cell : string) : Prop :=
  exists n : N,
    cell = pretty (n `div` 100)%N +:+ "." +:+ hundredths n /\
    (inject_Z (Z.of_N n) - (1 # 2) <= x * 100)%Q /\
    (x * 100 < inject_Z (Z.of_N n) + (1 # 2))%Q.

(** ** One unit after another *)

(** The units of one worker run one after another; each is given by its
    pair of [__VU] and [__ITER]. *)
Fixpoint units (s : Script) (service : K6.Service) (c : Config)
    (data : Benchmark.SetupData) (l : list (nat * nat)) : K6.M unit :=
  match l with
  | [] => mret tt
  | (vu, iter) :: l' =>
      default_of s service c vu iter data ;; units s service c data l'
  end.

(** How many samples each Trend got. *)
Definition sample_counts (n : nat) (ev : K6.Trace) : Prop :=
  length (K6.samples K6.Create ev) = n /\
  length (K6.samples K6.Read ev) = length (K6.samples K6.Update ev) /\
  length (K6.samples K6.Update ev) = length (K6.samples K6.Delete ev) /\
  (length (K6.samples K6.Read ev) <= n)%nat.

(** The configuration of part_000 with a negative warm-up count. *)
Definition minus_three_warmups : Config :=
  Part000.config {[ "WARMUP_ITERATIONS" := "-3" ]}.

(* ===================================================================== *)
(** * Theorems *)
(* ===================================================================== *)

(** Unfolds the monad and the k6 calls of a script body. *)
Ltac run_script :=
  cbv beta iota zeta delta
    [exec mbind mret K6.M_bind K6.M_ret K6.http_post K6.http_get K6.http_put
     K6.http_del K6.http_request K6.trend_add K6.sleep K6.console_log K6.emit
     K6.check snd fst].

Ltac flatten_trace := rewrite <- ?app_assoc; cbn [app].

(** ** The built-ins on small inputs *)

Example parseInt_examples :
  JS.parseInt "  42abc" = JS.Num 42 /\ JS.parseInt "abc" = JS.NaN
  /\ JS.parseInt "-0x1F" = JS.Num (-31) /\ JS.parseInt "" = JS.NaN
  /\ JS.parseInt "+7.5" = JS.Num 7 /\ JS.parseInt "0" = JS.Num 0.
Proof. repeat split; reflexivity. Qed.

Example toFixed_examples (ts : Q -> string) :
  JS.toFixed ts 2 25 = "25.00" /\ JS.toFixed ts 2 (1 # 3) = "0.33"
  /\ JS.toFixed ts 2 (1 # 8) = "0.13" /\ JS.toFixed ts 2 (-1 # 1000) = "-0.00"
  /\ JS.toFixed ts 2 (12345678 # 1000) = "12345.68"
  /\ JS.toFixed ts 0 (5 # 2) = "3"
  /\ JS.toFixed ts 2 (inject_Z (10 ^ 21)) = ts (inject_Z (10 ^ 21)).
Proof. repeat split; reflexivity. Qed.

Example split_lines_example :
  JS.split_lines ("a" +:+ String JS.CR nl +:+ "b" +:+ nl +:+ String JS.CR "c")
  = ["a"; "b"; String JS.CR "c"].
Proof. reflexivity. Qed.

Example trim_and_quotes_examples :
  JS.trim "  a b  " = "a b" /\ JS.strip_quotes "'abc'" = "abc"
  /\ JS.strip_quotes "'" = "" /\ JS.strip_quotes "a'" = "a"
  /\ JS.strip_quotes (dq +:+ "x'") = "x".
Proof. repeat split; reflexivity. Qed.

Example loadEnvFile_example :
  map_to_list (Benchmark.envFile sample_open)
  = [("SERVICE_NAME", "svc"); ("VUS", "5"); ("DURATION", "10s");
     ("DATABASE_TYPE", "")].
Proof. vm_compute. reflexivity. Qed.

(** ** Trace readers and concatenation *)

Lemma requests_tags (ev : K6.Trace) :
  map K6.method (K6.requests ev) = tag_methods (map tag ev).
Proof.
  induction ev as [|e ev IH]; [reflexivity|].
  destruct e; cbn; try f_equal; exact IH.
Qed.

Lemma samples_tags (ev : K6.Trace) :
  map fst (K6.all_samples ev) = tag_kinds (map tag ev).
Proof.
  induction ev as [|e ev IH]; [reflexivity|].
  destruct e; cbn; try f_equal; exact IH.
Qed.

Lemma sleeps_tags (ev : K6.Trace) :
  K6.sleeps ev = tag_sleeps (map tag ev).
Proof.
  induction ev as [|e ev IH]; [reflexivity|].
  destruct e; cbn; try f_equal; exact IH.
Qed.

Lemma requests_app (a b : K6.Trace) :
  K6.requests (a ++ b) = (K6.requests a ++ K6.requests b)%list.
Proof. apply omap_app. Qed.

Lemma all_samples_app (a b : K6.Trace) :
  K6.all_samples (a ++ b) = (K6.all_samples a ++ K6.all_samples b)%list.
Proof. apply omap_app. Qed.

Lemma count_method_app (m : K6.Method) (a b : K6.Trace) :
  count_method m (a ++ b) = (count_method m a + count_method m b)%nat.
Proof.
  unfold count_method, K6.requests_of.
  rewrite requests_app, filter_app. apply List.length_app.
Qed.

Section UnitShape.

Variable service : K6.Service.
Variable c : Config.

Lemma default_events (s : Script) (vu iter : nat)
    (data : Benchmark.SetupData) (t0 : K6.Trace) :
  exists ev,
    exec (default_of s service c vu iter data) t0 = (t0 ++ ev)%list /\
    unit_spec ev (service t0 (create_request_of s c vu iter data)).
Proof.
  destruct s;
    unfold unit_spec, default_of, create_request_of, Benchmark.default,
      Part000.default;
    run_script;
    (destruct (JS.truthy _) eqn:E; run_script; flatten_trace;
     (eexists; split; [reflexivity|]); repeat split; reflexivity).
Qed.

End UnitShape.

(** C1. One measured unit, in either script, started after any trace [t0]
    against any service: when the identifier returned by the create request
    is usable (truthy, the test the script applies), the unit issues exactly
    one POST, one GET, one PUT and one DELETE request, in that order, and
    adds exactly four samples, one to each of the create, read, update and
    delete Trends; otherwise it issues the POST request alone and adds the
    create sample alone.  In both cases the first sample is the create
    sample, holding the duration of the create response. *)
Theorem C1_unit_requests_and_samples (s : Script) (service : K6.Service)
    (c : Config) (vu iter : nat) (data : Benchmark.SetupData)
    (t0 : K6.Trace) :
  let post := service t0 (create_request_of s c vu iter data) in
  exists ev,
    exec (default_of s service c vu iter data) t0 = (t0 ++ ev)%list /\
    head (K6.all_samples ev) = Some (K6.Create, K6.duration post) /\
    if JS.truthy (K6.json_id post)
    then map K6.method (K6.requests ev) = [K6.POST; K6.GET; K6.PUT; K6.DEL]
         /\ map fst (K6.all_samples ev)
            = [K6.Create; K6.Read; K6.Update; K6.Delete]
         /\ length (K6.requests ev) = 4%nat
         /\ length (K6.all_samples ev) = 4%nat
    else map K6.method (K6.requests ev) = [K6.POST]
         /\ K6.all_samples ev = [(K6.Create, K6.duration post)]
         /\ length (K6.requests ev) = 1%nat
         /\ length (K6.all_samples ev) = 1%nat.
Proof.
  intros post.
  destruct (default_events service c s vu iter data t0)
    as (ev & Hexec & Htags & Hhead & _).
  fold post in Htags, Hhead.
  exists ev. split; [exact Hexec|]. split; [exact Hhead|].
  pose proof (requests_tags ev) as Hr. pose proof (samples_tags ev) as Hs.
  rewrite Htags in Hr, Hs.
  destruct (JS.truthy (K6.json_id post)).
  - cbn in Hr, Hs. repeat split; try assumption.
    + rewrite <- (length_map K6.method), Hr. reflexivity.
    + rewrite <- (length_map fst), Hs. reflexivity.
  - cbn in Hr, Hs.
    assert (Hone : K6.all_samples ev = [(K6.Create, K6.duration post)]).
    { destruct (K6.all_samples ev) as [|x [|y l]]; try discriminate.
      cbn in Hhead. congruence. }
    repeat split; try assumption.
    + rewrite <- (length_map K6.method), Hr. reflexivity.
    + rewrite Hone. reflexivity.
Qed.

(** C9. One measured unit, in either script: when the identifier returned
    by the create request is truthy the unit sleeps exactly four times, 0.1
    second each, once after the checks of each of the create, read, update
    and delete steps (the tags of its events are exactly [full_unit_tags]);
    otherwise it does not sleep at all. *)
Theorem C9_four_pauses_or_none (s : Script) (service : K6.Service)
    (c : Config) (vu iter : nat) (data : Benchmark.SetupData)
    (t0 : K6.Trace) :
  let post := service t0 (create_request_of s c vu iter data) in
  exists ev,
    exec (default_of s service c vu iter data) t0 = (t0 ++ ev)%list /\
    if JS.truthy (K6.json_id post)
    then map tag ev = full_unit_tags
         /\ K6.sleeps ev = [1 # 10; 1 # 10; 1 # 10; 1 # 10]
    else K6.sleeps ev = [].
Proof.
  intros post.
  destruct (default_events service c s vu iter data t0)
    as (ev & Hexec & Htags & _).
  fold post in Htags.
  exists ev. split; [exact Hexec|].
  pose proof (sleeps_tags ev) as Hs. rewrite Htags in Hs.
  destruct (JS.truthy (K6.json_id post)).
  - split; [exact Htags | exact Hs].
  - exact Hs.
Qed.

(** C10. The gate of steps 2 to 4 is the truthiness of the identifier: in
    either script, when the create response carries the number 0 or the
    empty string as its id, or carries no id at all, the unit issues the
    POST request alone; and the check named POST response has ID, which
    compares with null only, is recorded as passed all the same. *)
Theorem C10_truthiness_gate (s : Script) (service : K6.Service)
    (c : Config) (vu iter : nat) (data : Benchmark.SetupData)
    (t0 : K6.Trace) :
  zero_empty_or_missing
    (K6.json_id (service t0 (create_request_of s c vu iter data))) ->
  exists ev,
    exec (default_of s service c vu iter data) t0 = (t0 ++ ev)%list /\
    map K6.method (K6.requests ev) = [K6.POST] /\
    K6.checks ev !! 1%nat = Some ("POST response has ID", true).
Proof.
  intros Hid.
  destruct (default_events service c s vu iter data t0)
    as (ev & Hexec & Htags & _ & Hcheck).
  exists ev. split; [exact Hexec|].
  pose proof (requests_tags ev) as Hr. rewrite Htags in Hr.
  destruct Hid as [(q & Hq & Hz)|[Hq|Hq]]; rewrite Hq in *; cbn in *.
  - apply Qeq_bool_iff in Hz. rewrite Hz in Hr. cbn in Hr. split; assumption.
  - split; assumption.
  - split; assumption.
Qed.

(** ** The warm-up loop *)









(** More fuel than the loop needs changes nothing. *)
Lemma for_loop_fuel (body : Z -> K6.M unit) (fuel : nat) :
  forall (i w : Z),
    (Z.to_nat (w - i) <= fuel)%nat ->
    for_loop fuel i (JS.Num w) body
    = for_loop (Z.to_nat (w - i)) i (JS.Num w) body.
Proof.
  induction fuel as [|fuel IH]; intros i w Hfuel.
  - replace (Z.to_nat (w - i)) with 0%nat by lia. reflexivity.
  - destruct (Z.to_nat (w - i)) as [|n] eqn:Hn.
    + cbn [for_loop JS.lt]. destruct (i <? w)%Z eqn:Hlt; [|reflexivity].
      apply Z.ltb_lt in Hlt. lia.
    + cbn [for_loop JS.lt]. destruct (i <? w)%Z eqn:Hlt; [|reflexivity].
      rewrite (IH (i + 1)%Z w) by lia.
      replace (Z.to_nat (w - (i + 1))) with n by lia. reflexivity.
Qed.

Section Warmup.

Variable service : K6.Service.
Variable c : Config.




End Warmup.


Lemma samples_app (k : K6.Kind) (a b : K6.Trace) :
  K6.samples k (a ++ b) = K6.samples k a ++ K6.samples k b.
Proof. apply omap_app. Qed.



(** ** Decimal renderings *)

Lemma pretty_N_char_digit (x : N) : is_digit (pretty_N_char x) = true.
Proof. unfold pretty_N_char. repeat case_match; reflexivity. Qed.

Lemma pretty_N_go_digits (x : N) :
  forall s, all_digits s = true -> all_digits (pretty_N_go x s) = true.
Proof.
  induction (N.lt_wf_0 x) as [x _ IH]. intros s Hs.
  destruct (decide (x = 0)%N) as [->|Hx]; [exact Hs|].
  rewrite pretty_N_go_step by lia.
  apply IH; [apply N.div_lt; lia|].
  cbn [all_digits]. rewrite pretty_N_char_digit, Hs. reflexivity.
Qed.

Lemma pretty_N_digits (x : N) : all_digits (pretty x) = true.
Proof.
  unfold pretty, pretty_N. case_decide; [reflexivity|].
  apply pretty_N_go_digits. reflexivity.
Qed.

Lemma pretty_nat_digits (x : nat) : all_digits (pretty x) = true.
Proof. apply pretty_N_digits. Qed.

Lemma pretty_Z_digits (x : Z) : (0 <= x)%Z -> all_digits (pretty x) = true.
Proof.
  destruct x as [|p|p]; intros Hx; [reflexivity| |lia].
  apply (pretty_N_digits (Npos p)).
Qed.

Lemma pretty_N_go_length (x : N) :
  forall s, (String.length s <= String.length (pretty_N_go x s))%nat.
Proof.
  induction (N.lt_wf_0 x) as [x _ IH]. intros s.
  destruct (decide (x = 0)%N) as [->|Hx]; [reflexivity|].
  rewrite pretty_N_go_step by lia.
  etrans; [|apply IH; apply N.div_lt; lia]. cbn. lia.
Qed.

Lemma pretty_N_length (x : N) : (1 <= String.length (pretty x))%nat.
Proof.
  unfold pretty, pretty_N. case_decide; [cbn; lia|].
  rewrite pretty_N_go_step by lia.
  etrans; [|apply pretty_N_go_length]. cbn. lia.
Qed.

Lemma pretty_Z_length (x : Z) :
  (0 <= x)%Z -> (1 <= String.length (pretty x))%nat.
Proof.
  destruct x as [|p|p]; intros Hx; [cbn; lia| |lia].
  apply (pretty_N_length (Npos p)).
Qed.

(** Two strings of digits followed by an underscore and anything: equal
    wholes have equal parts. *)
Lemma digits_underscore_inj (a b x y : string) :
  all_digits a = true -> all_digits b = true ->
  a +:+ String "_" x = b +:+ String "_" y -> a = b /\ x = y.
Proof.
  revert b. induction a as [|ch a IH]; intros [|dh b] Ha Hb Heq; cbn in *.
  - injection Heq as ->. split; reflexivity.
  - injection Heq as <- _. discriminate.
  - injection Heq as -> _. discriminate.
  - injection Heq as -> Heq.
    apply andb_prop in Ha as [_ Ha]. apply andb_prop in Hb as [_ Hb].
    destruct (IH b Ha Hb Heq) as [-> ->]. split; reflexivity.
Qed.

Lemma numbered_inj (prefix : string) (vu iter vu' iter' : nat) :
  prefix +:+ pretty vu +:+ "_" +:+ pretty iter
  = prefix +:+ pretty vu' +:+ "_" +:+ pretty iter' ->
  vu = vu' /\ iter = iter'.
Proof.
  intros Heq. apply String.app_inj in Heq.
  apply digits_underscore_inj in Heq as [Hv Hi];
    try apply pretty_nat_digits.
  split; [exact (pretty_nat_inj _ _ Hv) | exact (pretty_nat_inj _ _ Hi)].
Qed.

(** C8. The identities of the measured units are injective in the pair
    (worker index, iteration counter): two units with equal titles, or with
    equal authors, have the same worker index and the same iteration
    counter, so distinct pairs get distinct titles and distinct authors; and
    no warm-up identity (the label Warmup) is a measurement identity (the
    label Test), whatever the indices.  This holds for the books of both
    scripts. *)
Theorem C8_identities_distinct (vu iter vu' iter' : nat) (i : Z) :
  (K6.title (Benchmark.test_book vu iter)
   = K6.title (Benchmark.test_book vu' iter') <-> (vu, iter) = (vu', iter'))
  /\ (K6.author (Benchmark.test_book vu iter)
      = K6.author (Benchmark.test_book vu' iter')
      <-> (vu, iter) = (vu', iter'))
  /\ K6.title (Benchmark.warmup_book i)
     <> K6.title (Benchmark.test_book vu iter)
  /\ K6.author (Benchmark.warmup_book i)
     <> K6.author (Benchmark.test_book vu iter)
  /\ Part000.test_book vu iter = Benchmark.test_book vu iter
  /\ Part000.warmup_book i = Benchmark.warmup_book i.
Proof.
  repeat split.
  - intros H. apply numbered_inj in H as [-> ->]. reflexivity.
  - intros [= -> ->]. reflexivity.
  - intros H. apply numbered_inj in H as [-> ->]. reflexivity.
  - intros [= -> ->]. reflexivity.
  - cbn. discriminate.
  - cbn. discriminate.
Qed.

(** ** Strings *)

Lemma append_cons (ch : ascii) (a b : string) :
  String ch a +:+ b = String ch (a +:+ b).
Proof. reflexivity. Qed.

Lemma append_nil_l (a : string) : "" +:+ a = a.
Proof. reflexivity. Qed.

Lemma append_assoc (a b d : string) : (a +:+ b) +:+ d = a +:+ (b +:+ d).
Proof.
  induction a as [|ch a IH]; [reflexivity|].
  rewrite !append_cons, IH. reflexivity.
Qed.

Lemma append_nil_r (a : string) : a +:+ "" = a.
Proof.
  induction a as [|ch a IH]; [reflexivity|].
  rewrite append_cons, IH. reflexivity.
Qed.

Lemma length_append (a b : string) :
  String.length (a +:+ b) = (String.length a + String.length b)%nat.
Proof.
  induction a as [|ch a IH]; [reflexivity|].
  rewrite append_cons. cbn. rewrite IH. reflexivity.
Qed.

Lemma substring_all (a : string) : String.substring 0 (String.length a) a = a.
Proof. induction a as [|ch a IH]; cbn; [reflexivity | f_equal; exact IH]. Qed.

Lemma substring_prefix (a b : string) :
  String.substring 0 (String.length a) (a +:+ b) = a.
Proof.
  induction a as [|ch a IH].
  - rewrite append_nil_l. destruct b; reflexivity.
  - rewrite append_cons. cbn. rewrite IH. reflexivity.
Qed.

Lemma substring_suffix (a b : string) :
  String.substring (String.length a) (String.length b) (a +:+ b) = b.
Proof.
  induction a as [|ch a IH].
  - rewrite append_nil_l. apply substring_all.
  - rewrite append_cons. cbn. exact IH.
Qed.

Lemma substring_after (a b : string) (n : nat) :
  n = String.length a ->
  String.substring n (String.length (a +:+ b) - n) (a +:+ b) = b.
Proof.
  intros ->. rewrite length_append.
  replace (String.length a + String.length b - String.length a)%nat
    with (String.length b) by lia.
  apply substring_suffix.
Qed.

Lemma all_digits_append (a b : string) :
  all_digits (a +:+ b) = all_digits a && all_digits b.
Proof.
  induction a as [|ch a IH]; [reflexivity|].
  rewrite append_cons. cbn. rewrite IH. apply andb_assoc.
Qed.

(** ** Decimal digits of a natural number *)

Lemma pretty_N_go_append (x : N) :
  forall s, pretty_N_go x s = pretty_N_go x "" +:+ s.
Proof.
  induction (N.lt_wf_0 x) as [x _ IH]. intros s.
  destruct (decide (x = 0)%N) as [->|Hx]; [reflexivity|].
  rewrite !(pretty_N_go_step x) by lia.
  assert (x `div` 10 < x)%N as Hlt by (apply N.div_lt; lia).
  rewrite (IH _ Hlt (String _ s)), (IH _ Hlt (String _ "")).
  rewrite append_assoc. reflexivity.
Qed.

Lemma pretty_N_small (x : N) :
  (x < 10)%N -> pretty x = String (pretty_N_char x) "".
Proof.
  intros Hx. unfold pretty, pretty_N. case_decide as H0; [subst; reflexivity|].
  rewrite pretty_N_go_step by lia.
  rewrite N.div_small, N.mod_small by lia. reflexivity.
Qed.

Lemma pretty_N_snoc (x : N) :
  (10 <= x)%N ->
  pretty x = pretty (x `div` 10)%N +:+ String (pretty_N_char (x `mod` 10)) "".
Proof.
  intros Hx. unfold pretty, pretty_N.
  assert (x `div` 10 <> 0)%N as Hd.
  { intros Hd. apply N.div_small_iff in Hd; lia. }
  rewrite !decide_False by lia.
  rewrite pretty_N_go_step by lia. apply pretty_N_go_append.
Qed.

Lemma place_point_2 (n : N) :
  JS.place_point 2 (pretty n) = pretty (n `div` 100)%N +:+ "." +:+ hundredths n.
Proof.
  unfold JS.place_point, hundredths.
  destruct (decide (n < 10)%N) as [H1|H1];
    [|destruct (decide (n < 100)%N) as [H2|H2]].
  - rewrite pretty_N_small by exact H1.
    rewrite (N.div_small n 100), (N.div_small n 10) by lia.
    rewrite (N.mod_small n 10) by lia. reflexivity.
  - rewrite pretty_N_snoc by lia.
    assert (n `div` 10 < 10)%N as Hd
      by (apply N.Div0.div_lt_upper_bound; lia).
    rewrite (pretty_N_small (n `div` 10)) by exact Hd.
    rewrite (N.div_small n 100) by lia.
    rewrite (N.mod_small (n `div` 10) 10) by exact Hd. reflexivity.
  - rewrite (pretty_N_snoc n) by lia.
    assert (10 <= n `div` 10)%N as Hd
      by (apply N.div_le_lower_bound; lia).
    rewrite (pretty_N_snoc (n `div` 10)) by exact Hd.
    rewrite N.Div0.div_div. change (10 * 10)%N with 100%N.
    rewrite append_assoc, append_cons, append_nil_l.
    set (w := pretty (n `div` 100)%N).
    set (r := String _ (String _ "")).
    assert (Hlen : String.length (w +:+ r) = (String.length w + 2)%nat)
      by (rewrite length_append; reflexivity).
    rewrite Hlen.
    pose proof (pretty_N_length (n `div` 100)) as Hw. fold w in Hw.
    destruct (String.length w + 2 <=? 2)%nat eqn:Hle;
      [apply Nat.leb_le in Hle; lia|].
    rewrite Hlen. replace (String.length w + 2 - 2)%nat with (String.length w)
      by lia.
    rewrite substring_prefix.
    change 2%nat with (String.length r) at 1. rewrite substring_suffix.
    reflexivity.
Qed.

(** ** toFixed(2) below 10^21 *)

Lemma Qabs_nonneg_eq (x : Q) : (0 <= x)%Q -> Qabs x = x.
Proof.
  destruct x as [a b]. unfold Qle. cbn. intros H.
  rewrite Z.abs_eq by lia. reflexivity.
Qed.

Lemma nearest_scaled_nonneg (f : nat) (x : Q) :
  (0 <= x)%Q -> (0 <= JS.nearest_scaled f x)%Z.
Proof.
  intros Hx. unfold JS.nearest_scaled.
  change 0%Z with (Qfloor 0). apply Qfloor_resp_le.
  apply Qle_trans with (x * inject_Z (10 ^ Z.of_nat f) + 0)%Q.
  - rewrite Qplus_0_r. apply Qmult_le_0_compat; [exact Hx|].
    change 0%Q with (inject_Z 0). rewrite <- Zle_Qle. lia.
  - apply Qplus_le_r. discriminate.
Qed.

Lemma pretty_Z_to_N (n : Z) : (0 <= n)%Z -> pretty n = pretty (Z.to_N n).
Proof. destruct n as [|p|p]; intros H; [reflexivity|reflexivity|lia]. Qed.

Lemma toFixed_2_in_range (ts : Q -> string) (x : Q) :
  in_range x ->
  JS.toFixed ts 2 x
  = pretty (cents x `div` 100)%N +:+ "." +:+ hundredths (cents x).
Proof.
  intros [H0 H1]. unfold JS.toFixed.
  rewrite (Qabs_nonneg_eq x H0).
  destruct (Qle_bool 0 x) eqn:E0;
    [|apply Qle_bool_iff in H0; congruence].
  destruct (Qle_bool (inject_Z (10 ^ 21)) x) eqn:E1.
  - apply Qle_bool_iff in E1. exfalso. exact (Qlt_not_le _ _ H1 E1).
  - rewrite append_nil_l.
    rewrite pretty_Z_to_N by (apply nearest_scaled_nonneg; exact H0).
    apply place_point_2.
Qed.


(** ** The report of part_000 *)

Section Report.

Variable c : Config.
Variable ts : Q -> string.
Variable metrics : gmap string K6.Metric.

Lemma read_avg_run (k : K6.Kind) (t0 : K6.Trace) :
  Part000.read_avg metrics (K6.trend_name k) (warning_of k) t0
  = (avg_or_zero metrics k, t0 ++ warning_events metrics k).
Proof.
  unfold Part000.read_avg, avg_or_zero, warning_events, metric_avg.
  destruct (metrics !! K6.trend_name k) as [m|]; [destruct (K6.values m)|];
    run_script; rewrite ?app_nil_r; reflexivity.
Qed.

Lemma handleSummary_run (now : Z) (t0 : K6.Trace) :
  Part000.handleSummary c ts metrics now t0
  = (<[report_name c now := Part000.csvHeader +:+ report_row ts metrics]>
       {[ "stdout" := "BookCatalog benchmark complete" ]},
     t0 ++ (warning_events metrics K6.Read
            ++ warning_events metrics K6.Create
            ++ warning_events metrics K6.Update
            ++ warning_events metrics K6.Delete)
        ++ map K6.ELog (report_lines ts metrics)).
Proof.
  unfold Part000.handleSummary. cbv [mbind K6.M_bind].
  rewrite (read_avg_run K6.Read), (read_avg_run K6.Create),
    (read_avg_run K6.Update), (read_avg_run K6.Delete).
  run_script. rewrite <- !app_assoc. reflexivity.
Qed.

End Report.

(** C3. In the report of part_000 the overall figure is the unweighted mean
    of the four per-kind averages, (get + create + update + delete) / 4: for
    averages whose sums and mean binary64 holds exactly, the data row
    written under the report name holds the four averages and that mean,
    and the last console line prints it.  In the scenario of three
    units with latencies create 10, read 20, update 30 and delete 40 the
    averages are 10, 20, 30 and 40, the overall is 25 and the data row is
    20.00,10.00,30.00,40.00,25.00.  It is not the mean over the raw samples:
    with two create samples and one of each other kind the overall is still
    25 while the mean of the five samples is 22. *)
Theorem C3_overall_is_unweighted_mean (c : Config) (ts : Q -> string)
    (metrics : gmap string K6.Metric) (now : Z) (t0 : K6.Trace) :
  sums_exact metrics ->
  let out := Part000.handleSummary c ts metrics now t0 in
  (mean_of_averages metrics
   == (avg_or_zero metrics K6.Read + avg_or_zero metrics K6.Create
       + avg_or_zero metrics K6.Update + avg_or_zero metrics K6.Delete) / 4)%Q
  /\ fst out !! report_name c now
     = Some (Part000.csvHeader +:+
             JS.toFixed ts 2 (avg_or_zero metrics K6.Read) +:+ "," +:+
             JS.toFixed ts 2 (avg_or_zero metrics K6.Create) +:+ "," +:+
             JS.toFixed ts 2 (avg_or_zero metrics K6.Update) +:+ "," +:+
             JS.toFixed ts 2 (avg_or_zero metrics K6.Delete) +:+ "," +:+
             JS.toFixed ts 2 (mean_of_averages metrics) +:+ nl)
  /\ last (K6.logs (snd out))
     = Some ("Overall: " +:+ JS.toFixed ts 2 (mean_of_averages metrics)
             +:+ "ms")
  /\ (let m := K6.summary_metrics scenario_trace in
      (avg_or_zero m K6.Create == 10)%Q /\ (avg_or_zero m K6.Read == 20)%Q
      /\ (avg_or_zero m K6.Update == 30)%Q
      /\ (avg_or_zero m K6.Delete == 40)%Q
      /\ (mean_of_averages m == 25)%Q
      /\ report_row ts m = "20.00,10.00,30.00,40.00,25.00" +:+ nl)
  /\ (mean_of_averages (K6.summary_metrics uneven_trace) == 25)%Q
  /\ (global_mean uneven_trace == 22)%Q.
Proof.
  intros _ out. subst out. rewrite handleSummary_run. cbn [fst snd].
  split; [reflexivity|]. split; [apply lookup_insert_eq|]. split.
  - unfold K6.logs. rewrite !omap_app.
    change (omap _ (map K6.ELog (report_lines ts metrics)))
      with (report_lines ts metrics).
    unfold report_lines. rewrite !app_assoc.
    change [?a; ?b; ?d; ?e; ?f; ?g] with ([a; b; d; e; f] ++ [g]).
    rewrite app_assoc. apply last_snoc.
  - repeat split; vm_compute; reflexivity.
Qed.

Lemma mean_in_range (metrics : gmap string K6.Metric) :
  (forall k, in_range (avg_or_zero metrics k)) ->
  in_range (mean_of_averages metrics).
Proof.
  intros H. unfold mean_of_averages, in_range.
  destruct (H K6.Read) as [R0 R1], (H K6.Create) as [C0 C1],
    (H K6.Update) as [U0 U1], (H K6.Delete) as [D0 D1].
  set (r := avg_or_zero metrics K6.Read) in *.
  set (cr := avg_or_zero metrics K6.Create) in *.
  set (u := avg_or_zero metrics K6.Update) in *.
  set (d := avg_or_zero metrics K6.Delete) in *.
  set (B := inject_Z (10 ^ 21)) in *.
  clearbody r cr u d B. clear H.
  split.
  - apply Qle_shift_div_l; [reflexivity|]. lra.
  - apply Qlt_shift_div_r; [reflexivity|]. lra.
Qed.







Lemma missing_metric_report (c : Config) (ts : Q -> string)
    (metrics : gmap string K6.Metric) (k : K6.Kind) (now : Z)
    (t0 : K6.Trace) :
  metric_avg metrics (K6.trend_name k) = None ->
  avg_or_zero metrics k = 0%Q /\
  exists ev,
    snd (Part000.handleSummary c ts metrics now t0) = t0 ++ ev /\
    In (K6.ELog (warning_of k)) ev.
Proof.
  intros Hk. split; [unfold avg_or_zero; rewrite Hk; reflexivity|].
  rewrite handleSummary_run. cbn [snd]. eexists. split; [reflexivity|].
  apply in_or_app. left.
  assert (Hw : warning_events metrics k = [K6.ELog (warning_of k)])
    by (unfold warning_events; rewrite Hk; reflexivity).
  destruct k; rewrite Hw; rewrite ?in_app_iff; cbn; tauto.
Qed.


(** ** Configuration *)


Lemma rev_app_rev_app (a b d : string) :
  String.rev_app (String.rev_app a b) d = String.rev_app b (a +:+ d).
Proof.
  revert b d. induction a as [|ch a IH]; intros b d; [reflexivity|].
  cbn [String.rev_app]. rewrite IH. reflexivity.
Qed.

Lemma rev_involutive (a : string) : String.rev (String.rev a) = a.
Proof.
  unfold String.rev. rewrite rev_app_rev_app. cbn [String.rev_app].
  apply append_nil_r.
Qed.

Lemma rev_app_append (a b acc : string) :
  String.rev_app (a +:+ b) acc = String.rev_app b (String.rev_app a acc).
Proof.
  revert acc. induction a as [|ch a IH]; intros acc; [reflexivity|].
  rewrite append_cons. cbn [String.rev_app]. apply IH.
Qed.

(** One quote character at each end is removed, whatever is in between. *)
Lemma strip_quotes_surrounded (q1 q2 : ascii) (v : string) :
  JS.is_quote q1 = true -> JS.is_quote q2 = true ->
  JS.strip_quotes (String q1 (v +:+ String q2 "")) = v.
Proof.
  intros H1 H2. unfold JS.strip_quotes, JS.strip_trailing_quote.
  cbn [JS.strip_leading_quote]. rewrite H1.
  unfold String.rev at 2. rewrite rev_app_append. cbn [String.rev_app].
  cbn [JS.strip_leading_quote]. rewrite H2.
  apply rev_involutive.
Qed.

Lemma plain_not_white (ch : ascii) : plain ch = true -> JS.is_white ch = false.
Proof.
  unfold plain. intros H. apply andb_prop in H as [H _].
  apply andb_prop in H as [H _]. apply negb_true_iff in H. exact H.
Qed.

Lemma quote_not_white (q : ascii) : JS.is_quote q = true -> JS.is_white q = false.
Proof.
  unfold JS.is_quote. intros H. apply orb_prop in H as [H|H];
    apply Ascii.eqb_eq in H; subst q; reflexivity.
Qed.

Lemma trimStart_head (ch : ascii) (s : string) :
  JS.is_white ch = false -> JS.trimStart (String ch s) = String ch s.
Proof. intros H. cbn [JS.trimStart]. rewrite H. reflexivity. Qed.

Lemma rev_snoc (a : string) (ch : ascii) :
  String.rev (a +:+ String ch "") = String ch (String.rev a).
Proof. unfold String.rev. rewrite rev_app_append. reflexivity. Qed.

Lemma rev_cons_rev (a : string) (ch : ascii) :
  String.rev (String ch (String.rev a)) = a +:+ String ch "".
Proof.
  unfold String.rev. cbn [String.rev_app]. rewrite rev_app_rev_app.
  reflexivity.
Qed.

Lemma trimEnd_last (a : string) (ch : ascii) :
  JS.is_white ch = false ->
  JS.trimEnd (a +:+ String ch "") = a +:+ String ch "".
Proof.
  intros H. unfold JS.trimEnd. rewrite rev_snoc, (trimStart_head _ _ H).
  apply rev_cons_rev.
Qed.

Lemma all_plain_rev_app (a b : string) :
  all_plain (String.rev_app a b) = all_plain a && all_plain b.
Proof.
  revert b. induction a as [|ch a IH]; intros b; [reflexivity|].
  cbn [String.rev_app all_plain]. rewrite IH. cbn [all_plain].
  destruct (plain ch), (all_plain a), (all_plain b); reflexivity.
Qed.

Lemma trimStart_plain (s : string) : all_plain s = true -> JS.trimStart s = s.
Proof.
  destruct s as [|ch s]; [reflexivity|]. cbn [all_plain]. intros H.
  apply andb_prop in H as [H _]. apply trimStart_head, plain_not_white, H.
Qed.

Lemma trim_plain (s : string) : all_plain s = true -> JS.trim s = s.
Proof.
  intros H. unfold JS.trim, JS.trimEnd. rewrite (trimStart_plain s H).
  rewrite trimStart_plain; [apply rev_involutive|].
  unfold String.rev. rewrite all_plain_rev_app, H. reflexivity.
Qed.

Lemma indexOf_after_plain (a rest : string) :
  all_plain a = true ->
  JS.indexOf "="%char (a +:+ String "=" rest) = Some (String.length a).
Proof.
  induction a as [|ch a IH]; [reflexivity|].
  cbn [all_plain]. intros H. apply andb_prop in H as [Hc Ha].
  rewrite append_cons. cbn [JS.indexOf String.length].
  rewrite (IH Ha).
  unfold plain in Hc. apply andb_prop in Hc as [Hc _].
  apply andb_prop in Hc as [_ Hc]. apply negb_true_iff in Hc.
  rewrite Hc. reflexivity.
Qed.

(** A line [key=<quote>value<quote>] assigns [value] to [key]. *)
Lemma parse_line_quoted (acc : gmap string string) (k v : string)
    (q1 q2 : ascii) :
  all_plain k = true -> k <> "" ->
  JS.is_quote q1 = true -> JS.is_quote q2 = true ->
  Benchmark.parse_line acc (k +:+ "=" +:+ String q1 (v +:+ String q2 ""))
  = Benchmark.assign acc k v.
Proof.
  intros Hk Hne H1 H2.
  set (raw := String q1 (v +:+ String q2 "")).
  set (line := k +:+ "=" +:+ raw).
  assert (Hraw : JS.trim raw = raw).
  { unfold JS.trim, raw. rewrite (trimStart_head _ _ (quote_not_white _ H1)).
    rewrite <- append_cons. apply trimEnd_last, quote_not_white, H2. }
  assert (Hline : JS.trim line = line).
  { unfold JS.trim, line.
    destruct k as [|k0 k']; [congruence|].
    cbn [all_plain] in Hk. apply andb_prop in Hk as [Hk0 _].
    rewrite append_cons, (trimStart_head _ _ (plain_not_white _ Hk0)).
    rewrite <- append_cons. unfold raw.
    change (String k0 k' +:+ "=" +:+ String q1 (v +:+ String q2 ""))
      with (String k0 k' +:+ ("=" +:+ String q1 v) +:+ String q2 "").
    rewrite <- append_assoc. apply trimEnd_last, quote_not_white, H2. }
  unfold Benchmark.parse_line. rewrite Hline.
  assert (Hnb : String.eqb line "" = false).
  { apply String.eqb_neq. unfold line. destruct k; [congruence|discriminate]. }
  assert (Hnc : JS.startsWith "#" line = false).
  { unfold line, JS.startsWith. destruct k as [|k0 k']; [congruence|].
    cbn [all_plain] in Hk. apply andb_prop in Hk as [Hk0 _].
    unfold plain in Hk0. apply andb_prop in Hk0 as [_ Hk0].
    apply negb_true_iff, Ascii.eqb_neq in Hk0.
    rewrite append_cons. cbn [String.prefix].
    destruct (ascii_dec "#" k0); [contradiction | reflexivity]. }
  rewrite Hnb, Hnc. cbn [orb].
  unfold line at 1. change ("=" +:+ raw) with (String "=" raw).
  rewrite (indexOf_after_plain k raw Hk).
  assert (A1 : JS.slice_to (String.length k) line = k)
    by (unfold JS.slice_to, line; apply substring_prefix).
  assert (A2 : JS.slice_from (String.length k + 1) line = raw).
  { unfold JS.slice_from.
    replace line with ((k +:+ "=") +:+ raw)
      by (unfold line; apply append_assoc).
    apply substring_after. rewrite length_append. reflexivity. }
  rewrite A1, A2, (trim_plain k Hk), Hraw.
  unfold raw. rewrite (strip_quotes_surrounded q1 q2 v H1 H2).
  destruct (String.eqb k "") eqn:Ek; [apply String.eqb_eq in Ek; congruence|].
  reflexivity.
Qed.



(** ** Settings that are not numbers *)

(** [parseInt] of a string whose first character is neither white space nor
    a sign nor a decimal digit. *)
Lemma parseInt_no_digit (ch : ascii) (s : string) :
  JS.is_white ch = false -> JS.radix_digit 10 ch = None ->
  ch <> "-"%char -> ch <> "+"%char ->
  JS.parseInt (String ch s) = JS.NaN.
Proof.
  intros Hw Hd Hm Hp. unfold JS.parseInt.
  rewrite (trimStart_head _ _ Hw).
  assert (Hsign : JS.strip_sign (String ch s) = (1%Z, String ch s)).
  { unfold JS.strip_sign.
    destruct ch as [[] [] [] [] [] [] [] []]; try reflexivity; congruence. }
  rewrite Hsign.
  assert (Hhex : JS.strip_hex_prefix (String ch s) = (10%Z, String ch s)).
  { unfold JS.strip_hex_prefix.
    destruct ch as [[] [] [] [] [] [] [] []]; try reflexivity.
    cbv in Hd. discriminate. }
  rewrite Hhex. cbn [JS.parse_digits]. rewrite Hd. reflexivity.
Qed.

(** C7, as the code has it.  Nothing in either script fails on a setting
    that is not a number: parseInt turns a string that starts with a
    character other than white space, a sign or a decimal digit into NaN,
    the parsed VUS goes unchanged into options.vus, and with
    WARMUP_ITERATIONS NaN the warm-up of either script runs to its
    end having issued no request, after which a unit issues its create
    request as usual. *)
Theorem C7_no_fail_fast (s : Script) (service : K6.Service) (c : Config)
    (now : Z) (t0 t1 : K6.Trace) (vu iter : nat)
    (data : Benchmark.SetupData) (ch : ascii) (rest : string) :
  JS.is_white ch = false -> JS.radix_digit 10 ch = None ->
  ch <> "-"%char -> ch <> "+"%char ->
  WARMUP_ITERATIONS c = JS.NaN ->
  JS.parseInt (String ch rest) = JS.NaN
  /\ map (fun x => vus (snd x)) (scenarios (Benchmark.options c)) = [VUS c]
  /\ map (fun x => vus (snd x)) (scenarios (Part000.options c)) = [VUS c]
  /\ (exists ev,
        exec (setup_of s service c now) t0 = t0 ++ ev /\ K6.requests ev = [])
  /\ (exists ev,
        exec (default_of s service c vu iter data) t1 = t1 ++ ev /\
        head (K6.requests ev) = Some (create_request_of s c vu iter data)).
Proof.
  intros Hw Hd Hm Hp HW. split; [apply parseInt_no_digit; assumption|].
  split; [reflexivity|]. split; [reflexivity|]. split.
  - destruct s; unfold setup_of, Benchmark.setup, Part000.setup;
      rewrite HW; run_script; cbn [JS.gt trip_count for_loop]; run_script;
      flatten_trace; (eexists; split; [reflexivity|reflexivity]).
  - destruct s;
      unfold default_of, create_request_of, Benchmark.default,
        Part000.default;
      run_script;
      (destruct (JS.truthy _); run_script; flatten_trace;
       (eexists; split; [reflexivity|reflexivity])).
Qed.

(** Against C7 as written: with WARMUP_ITERATIONS set to abc and VUS to
    12abc, benchmark.js resolves its constants (to NaN and to 12) and the run
    goes on to issue the four requests of its first unit. *)
Lemma C7_non_numeric_setting_runs :
  let ENV : gmap string string :=
    {[ "WARMUP_ITERATIONS" := "abc"; "VUS" := "12abc" ]} in
  let c := Benchmark.config ENV (fun _ => None) in
  WARMUP_ITERATIONS c = JS.NaN
  /\ VUS c = JS.Num 12
  /\ map K6.method
       (K6.requests (K6.run (first_unit benchmark_js scenario_service c 0)))
     = [K6.POST; K6.GET; K6.PUT; K6.DEL].
Proof. vm_compute. repeat split; reflexivity. Qed.

(** ** Instances *)


Lemma scenario_averages_in_range :
  forall k, in_range (avg_or_zero (K6.summary_metrics scenario_trace) k).
Proof. intros k; destruct k; vm_compute; split; congruence. Defined.

Lemma scenario_sums_exact : sums_exact (K6.summary_metrics scenario_trace).
Proof. vm_compute. repeat split; reflexivity. Defined.

Lemma C3_overall_witness :
  sums_exact (K6.summary_metrics scenario_trace) /\
  (let out := Part000.handleSummary (Part000.config ∅) no_exponent
                (K6.summary_metrics scenario_trace) 1700000000000 [] in
   fst out !! "bookcatalog_results_sqlite_1700000000000.csv"
   = Some ("get_latency,create_latency,update_latency,delete_latency,overall_latency"
           +:+ nl +:+ "20.00,10.00,30.00,40.00,25.00" +:+ nl)
   /\ last (K6.logs (snd out)) = Some "Overall: 25.00ms").
Proof.
  split; [exact scenario_sums_exact|].
  destruct (C3_overall_is_unweighted_mean (Part000.config ∅) no_exponent
              (K6.summary_metrics scenario_trace) 1700000000000 []
              scenario_sums_exact)
    as (_ & H2 & H3 & _).
  split; [exact H2 | exact H3].
Defined.




Lemma C7_no_fail_fast_witness :
  WARMUP_ITERATIONS warmup_abc = JS.NaN /\
  JS.parseInt "abc" = JS.NaN /\
  exists ev,
    exec (setup_of benchmark_js scenario_service warmup_abc 0) [] = [] ++ ev
    /\ K6.requests ev = [].
Proof.
  split; [reflexivity|].
  destruct (C7_no_fail_fast benchmark_js scenario_service warmup_abc 0 [] []
              1 0 (Benchmark.mkSetupData "log.csv") "a"%char "bc"
              eq_refl eq_refl ltac:(discriminate) ltac:(discriminate) eq_refl)
    as (H1 & _ & _ & H2 & _).
  split; [exact H1 | exact H2].
Defined.

Lemma C10_truthiness_gate_witness :
  exists ev,
    exec (default_of part_000 silent_service (Part000.config ∅) 1 0
            (Benchmark.mkSetupData "log.csv")) [] = [] ++ ev /\
    map K6.method (K6.requests ev) = [K6.POST] /\
    K6.checks ev !! 1%nat = Some ("POST response has ID", true).
Proof.
  apply (C10_truthiness_gate part_000 silent_service (Part000.config ∅) 1 0
           (Benchmark.mkSetupData "log.csv") []).
  right. right. reflexivity.
Defined.

(* ===================================================================== *)
(** * Further properties of the scripts *)
(* ===================================================================== *)

(** ** Invariants that sequencing and looping keep *)

Section Emits.

Context (P : K6.Trace -> Prop) `{!Additive P}.

Lemma emits_ret {A : Type} (x : A) : emits P (mret x).
Proof.
  intros t0. exists []. rewrite app_nil_r.
  split; [reflexivity | apply additive_nil].
Qed.

Lemma emits_bind {A B : Type} (m : K6.M A) (f : A -> K6.M B) :
  emits P m -> (forall a, emits P (f a)) -> emits P (m ≫= f).
Proof.
  intros Hm Hf t0.
  destruct (Hm t0) as (ev1 & H1 & Q1).
  unfold exec in *. cbv [mbind K6.M_bind].
  destruct (m t0) as [a t1]. cbn in H1. subst t1.
  destruct (Hf a (t0 ++ ev1)) as (ev2 & H2 & Q2).
  exists (ev1 ++ ev2). split.
  - unfold exec in H2. cbv beta iota. rewrite H2. symmetry. apply app_assoc.
  - apply additive_app; assumption.
Qed.

Lemma emits_log (line : string) :
  P [K6.ELog line] -> emits P (K6.console_log line).
Proof. intros H t0. exists [K6.ELog line]. split; [reflexivity | exact H]. Qed.

Lemma emits_for_loop (body : Z -> K6.M unit) :
  (forall i, emits P (body i)) ->
  forall fuel i bound, emits P (for_loop fuel i bound body).
Proof.
  intros Hbody fuel. induction fuel as [|fuel IH]; intros i bound.
  - apply (emits_ret tt).
  - cbn [for_loop]. destruct (JS.lt (JS.Num i) bound).
    + apply emits_bind; [apply Hbody | intros _; apply IH].
    + apply (emits_ret tt).
Qed.

(** Both warm-ups are a few log lines around the loop. *)
Lemma emits_Benchmark_setup (service : K6.Service) (c : Config) (now : Z) :
  (forall line, P [K6.ELog line]) ->
  (forall i, emits P (Benchmark.warmup_iteration service c i)) ->
  emits P (Benchmark.setup service c now).
Proof.
  intros Hlog HB. unfold Benchmark.setup.
  apply emits_bind; [apply emits_log, Hlog|intros _].
  apply emits_bind; [apply emits_log, Hlog|intros _].
  apply emits_bind; [|intros; apply emits_ret].
  destruct (JS.gt _ _); [|apply (emits_ret tt)].
  apply emits_bind; [apply emits_log, Hlog|intros _].
  apply emits_bind; [|intros; apply emits_log, Hlog].
  apply emits_for_loop, HB.
Qed.

Lemma emits_Part000_setup (service : K6.Service) (c : Config) :
  (forall line, P [K6.ELog line]) ->
  (forall i, emits P (Part000.warmup_iteration service c i)) ->
  emits P (Part000.setup service c).
Proof.
  intros Hlog HP. unfold Part000.setup.
  apply emits_bind; [apply emits_log, Hlog|intros _].
  apply emits_bind; [apply emits_for_loop, HP|intros _].
  apply emits_bind; [apply emits_log, Hlog|intros; apply emits_ret].
Qed.

Lemma emits_setup_of (s : Script) (service : K6.Service) (c : Config)
    (now : Z) :
  (forall line, P [K6.ELog line]) ->
  (forall i, emits P (Benchmark.warmup_iteration service c i)) ->
  (forall i, emits P (Part000.warmup_iteration service c i)) ->
  emits P (setup_of s service c now).
Proof.
  intros Hlog HB HP. destruct s; unfold setup_of.
  - apply emits_bind; [|intros; apply emits_ret].
    apply emits_Benchmark_setup; assumption.
  - apply emits_Part000_setup; assumption.
Qed.

End Emits.

Global Instance balanced_additive : Additive balanced.
Proof.
  split; [repeat split; cbn; lia|].
  intros a b (A1 & A2 & A3) (B1 & B2 & B3). unfold balanced.
  rewrite !count_method_app. lia.
Qed.

Lemma sleeps_app (a b : K6.Trace) :
  K6.sleeps (a ++ b) = K6.sleeps a ++ K6.sleeps b.
Proof. apply omap_app. Qed.

Lemma checks_app (a b : K6.Trace) :
  K6.checks (a ++ b) = K6.checks a ++ K6.checks b.
Proof. apply omap_app. Qed.

Global Instance silent_additive : Additive silent.
Proof.
  split; [repeat split|].
  intros a b (A1 & A2 & A3) (B1 & B2 & B3). unfold silent.
  rewrite sleeps_app, checks_app, all_samples_app, A1, A2, A3, B1, B2, B3.
  repeat split.
Qed.

Global Instance paced_additive : Additive paced.
Proof.
  split; [split; reflexivity|].
  intros a b (A1 & A2) (B1 & B2). unfold paced.
  rewrite sleeps_app, checks_app, requests_app, count_method_app.
  rewrite !List.length_app. lia.
Qed.

Global Instance all_addressed_additive (c : Config) :
  Additive (all_addressed c).
Proof.
  split; [constructor|].
  intros a b Ha Hb. unfold all_addressed in *. rewrite requests_app.
  apply Forall_app. split; assumption.
Qed.

Section WarmupInvariants.

Variable service : K6.Service.
Variable c : Config.

Ltac warmup_body :=
  intros t0; run_script;
  destruct (JS.truthy _); run_script; flatten_trace;
  (eexists; split; [reflexivity|]).

Lemma Benchmark_warmup_balanced (i : Z) :
  emits balanced (Benchmark.warmup_iteration service c i).
Proof.
  unfold Benchmark.warmup_iteration. warmup_body;
    repeat split; vm_compute; lia.
Qed.

Lemma Part000_warmup_balanced (i : Z) :
  emits balanced (Part000.warmup_iteration service c i).
Proof.
  unfold Part000.warmup_iteration. warmup_body;
    repeat split; vm_compute; lia.
Qed.

Lemma Benchmark_warmup_silent (i : Z) :
  emits silent (Benchmark.warmup_iteration service c i).
Proof.
  unfold Benchmark.warmup_iteration. warmup_body; repeat split.
Qed.

Lemma Part000_warmup_paced (i : Z) :
  emits paced (Part000.warmup_iteration service c i).
Proof.
  unfold Part000.warmup_iteration. warmup_body; split; vm_compute; reflexivity.
Qed.

End WarmupInvariants.

(** X1. Whatever the configuration (a count that is positive, zero,
    negative or NaN) and whatever the service answers, the warm-up of either
    script issues as many GET as PUT as DELETE requests, and no more of them
    than POST requests: the three follow-up requests of an iteration are
    issued together or not at all. *)
Theorem X1_warmup_follow_ups_together (s : Script) (service : K6.Service)
    (c : Config) (now : Z) (t0 : K6.Trace) :
  exists ev,
    exec (setup_of s service c now) t0 = t0 ++ ev /\
    count_method K6.GET ev = count_method K6.PUT ev /\
    count_method K6.PUT ev = count_method K6.DEL ev /\
    (count_method K6.GET ev <= count_method K6.POST ev)%nat.
Proof.
  apply (emits_setup_of balanced).
  - intros line. repeat split; cbn; lia.
  - apply Benchmark_warmup_balanced.
  - apply Part000_warmup_balanced.
Qed.

(** X2. The two warm-ups differ in what they do besides requests.  That of
    benchmark.js never sleeps, never records a check and never adds a
    sample.  That of part_000 records exactly one check per request and
    sleeps exactly four times for every GET it issues. *)
Theorem X2_warmup_pacing (service : K6.Service) (c : Config) (now : Z)
    (t0 : K6.Trace) :
  (exists ev,
     exec (Benchmark.setup service c now) t0 = t0 ++ ev /\
     K6.sleeps ev = [] /\ K6.checks ev = [] /\ K6.all_samples ev = [])
  /\ (exists ev,
        exec (Part000.setup service c) t0 = t0 ++ ev /\
        length (K6.sleeps ev) = (4 * count_method K6.GET ev)%nat /\
        length (K6.checks ev) = length (K6.requests ev)).
Proof.
  split.
  - apply (emits_Benchmark_setup silent).
    + intros line. repeat split.
    + apply Benchmark_warmup_silent.
  - apply (emits_Part000_setup paced).
    + intros line. split; reflexivity.
    + apply Part000_warmup_paced.
Qed.

(** X3. A negative warm-up count is taken as none: with WARMUP_ITERATIONS a
    negative integer the warm-up of either script issues no request. *)
Theorem X3_negative_warmup_count (s : Script) (service : K6.Service)
    (c : Config) (now w : Z) (t0 : K6.Trace) :
  WARMUP_ITERATIONS c = JS.Num w -> (w < 0)%Z ->
  exists ev,
    exec (setup_of s service c now) t0 = t0 ++ ev /\ K6.requests ev = [].
Proof.
  intros HW Hw. destruct w as [|p|p]; try lia.
  destruct s; unfold setup_of, Benchmark.setup, Part000.setup;
    rewrite HW; unfold trip_count;
    change (Z.to_nat (Z.neg p)) with 0%nat;
    change (JS.gt (JS.Num (Z.neg p)) (JS.Num 0)) with false;
    cbn [for_loop]; run_script; flatten_trace;
    (eexists; split; [reflexivity|reflexivity]).
Qed.

Lemma X3_negative_warmup_witness :
  WARMUP_ITERATIONS minus_three_warmups = JS.Num (-3) /\
  exists ev,
    exec (setup_of part_000 scenario_service minus_three_warmups 0) []
    = [] ++ ev /\ K6.requests ev = [].
Proof.
  split; [reflexivity|].
  apply (X3_negative_warmup_count part_000 scenario_service
           minus_three_warmups 0 (-3) []); [reflexivity | lia].
Defined.

(** ** Where the requests go and what they carry *)

Ltac forall_addressed :=
  repeat match goal with
         | |- Forall _ (_ :: _) => constructor
         | |- Forall _ [] => constructor
         end;
  unfold addressed; cbn; tauto.

Lemma default_addressed (s : Script) (service : K6.Service) (c : Config)
    (vu iter : nat) (data : Benchmark.SetupData) :
  emits (all_addressed c) (default_of s service c vu iter data).
Proof.
  intros t0.
  destruct s; unfold default_of, Benchmark.default, Part000.default;
    run_script;
    (destruct (JS.truthy _); run_script; flatten_trace;
     (eexists; split; [reflexivity|]);
     unfold all_addressed; cbn; forall_addressed).
Qed.

Lemma warmup_addressed (service : K6.Service) (c : Config) (i : Z) :
  emits (all_addressed c) (Benchmark.warmup_iteration service c i)
  /\ emits (all_addressed c) (Part000.warmup_iteration service c i).
Proof.
  split; intros t0;
    unfold Benchmark.warmup_iteration, Part000.warmup_iteration;
    run_script;
    (destruct (JS.truthy _); run_script; flatten_trace;
     (eexists; split; [reflexivity|]);
     unfold all_addressed; cbn; forall_addressed).
Qed.

(** X4. Every request either script ever issues, in the warm-up or in a
    measured unit, goes to the configured BASE_URL (the collection itself
    or one item under it) and carries the header XDN with the configured
    SERVICE_NAME and the header Content-Type: application/json. *)
Theorem X4_requests_addressed (s : Script) (service : K6.Service)
    (c : Config) (now : Z) (vu iter : nat) (data : Benchmark.SetupData)
    (t0 : K6.Trace) :
  (exists ev,
     exec (setup_of s service c now) t0 = t0 ++ ev /\
     Forall (addressed c) (K6.requests ev))
  /\ (exists ev,
        exec (default_of s service c vu iter data) t0 = t0 ++ ev /\
        Forall (addressed c) (K6.requests ev)).
Proof.
  split.
  - apply (emits_setup_of (all_addressed c)).
    + intros line. constructor.
    + intros i. apply warmup_addressed.
    + intros i. apply warmup_addressed.
  - apply default_addressed.
Qed.

(** X5. The requests of a measured unit, in either script.  After the
    create request, and only when it was answered with a truthy id, come a
    GET, a PUT and a DELETE on the item of that very id, with the headers of
    the create request; the GET and the DELETE have no body and the PUT
    carries the book of the create request with Updated put before its
    title and its author. *)
Theorem X5_unit_requests (s : Script) (service : K6.Service) (c : Config)
    (vu iter : nat) (data : Benchmark.SetupData) (t0 : K6.Trace) :
  let q := create_request_of s c vu iter data in
  let id := K6.json_id (service t0 q) in
  (exists ev,
     exec (default_of s service c vu iter data) t0 = t0 ++ ev /\
     K6.requests ev
     = if JS.truthy id then unit_requests s c vu iter data id else [q])
  /\ K6.body q = Some (book_of s vu iter)
  /\ K6.title (updated_book_of s vu iter)
     = "Updated " +:+ K6.title (book_of s vu iter)
  /\ K6.author (updated_book_of s vu iter)
     = "Updated " +:+ K6.author (book_of s vu iter).
Proof.
  intros q id. subst q id. split.
  - destruct s;
      unfold default_of, create_request_of, unit_requests, Benchmark.default,
        Part000.default;
      run_script;
      (destruct (JS.truthy _); run_script; flatten_trace;
       (eexists; split; [reflexivity|reflexivity])).
  - destruct s; repeat split.
Qed.

(** X6. What a measured unit records, in either script, whatever the
    service answers: the samples it adds are, in order, the durations of the
    responses to its requests, and its status checks are, in order, whether
    the status of each of these responses is 200.  So a status other than
    200 fails a check and changes nothing else. *)
Theorem X6_unit_records_answers (s : Script) (service : K6.Service)
    (c : Config) (vu iter : nat) (data : Benchmark.SetupData)
    (t0 : K6.Trace) :
  exists ev,
    exec (default_of s service c vu iter data) t0 = t0 ++ ev /\
    map snd (K6.all_samples ev) = map K6.duration (answers service t0 ev) /\
    status_checks ev
    = map (fun r => (K6.status r =? 200)%Z) (answers service t0 ev).
Proof.
  destruct s;
    unfold default_of, Benchmark.default, Part000.default;
    run_script;
    (destruct (JS.truthy _); run_script; flatten_trace;
     (eexists; split; [reflexivity|]);
     cbn [answers]; flatten_trace; split; reflexivity).
Qed.

(** X7. A create response whose id is the JSON null fails the check POST
    response has ID, and the unit then stops after its create request: in
    neither script does a unit go on after that check has failed. *)
Theorem X7_null_id_stops_unit (s : Script) (service : K6.Service)
    (c : Config) (vu iter : nat) (data : Benchmark.SetupData)
    (t0 : K6.Trace) :
  K6.json_id (service t0 (create_request_of s c vu iter data)) = JS.VNull ->
  exists ev,
    exec (default_of s service c vu iter data) t0 = t0 ++ ev /\
    K6.requests ev = [create_request_of s c vu iter data] /\
    K6.checks ev !! 1%nat = Some ("POST response has ID", false) /\
    K6.sleeps ev = [].
Proof.
  intros Hnull.
  destruct s;
    unfold default_of, create_request_of, Benchmark.default, Part000.default
      in *;
    run_script; rewrite Hnull; run_script; cbn [JS.truthy JS.strict_ne_null];
    run_script; flatten_trace;
    (eexists; split; [reflexivity|]); repeat split.
Qed.

Lemma X7_null_id_witness :
  exists ev,
    exec (default_of benchmark_js null_service benchmark_defaults 1 0
            (Benchmark.mkSetupData "log.csv")) [] = [] ++ ev /\
    K6.requests ev
    = [create_request_of benchmark_js benchmark_defaults 1 0
         (Benchmark.mkSetupData "log.csv")] /\
    K6.checks ev !! 1%nat = Some ("POST response has ID", false) /\
    K6.sleeps ev = [].
Proof.
  apply (X7_null_id_stops_unit benchmark_js null_service benchmark_defaults
           1 0 (Benchmark.mkSetupData "log.csv") []).
  reflexivity.
Defined.

Lemma Benchmark_setup_data (service : K6.Service) (c : Config) (now : Z)
    (t0 : K6.Trace) :
  fst (Benchmark.setup service c now t0)
  = Benchmark.mkSetupData (report_name c now).
Proof.
  unfold Benchmark.setup. cbv [mbind K6.M_bind].
  repeat match goal with
         | |- context [let '(_, _) := ?m ?t in _] => destruct (m t)
         end.
  reflexivity.
Qed.

(** X8. In benchmark.js the name formed by setup reaches the service: when
    a measured unit is given what setup returned, every request of the unit
    carries the header X-Log-Filename with the value
    bookcatalog_results_<DATABASE_TYPE>_<epoch-millis>.csv, the time being
    the one setup read. *)
Theorem X8_log_filename_header (service : K6.Service) (c : Config) (now : Z)
    (vu iter : nat) (t0 : K6.Trace) :
  let after := Benchmark.setup service c now t0 in
  exists ev,
    exec (Benchmark.default service c vu iter (fst after)) (snd after)
    = snd after ++ ev /\
    K6.requests ev <> [] /\
    Forall (fun r =>
              In ("X-Log-Filename",
                  "bookcatalog_results_" +:+ DATABASE_TYPE c +:+ "_"
                  +:+ pretty now +:+ ".csv") (K6.headers r))
           (K6.requests ev).
Proof.
  intros after. subst after. rewrite Benchmark_setup_data.
  generalize (snd (Benchmark.setup service c now t0)). intros t1.
  unfold Benchmark.default. run_script.
  destruct (JS.truthy _); run_script; flatten_trace;
    (eexists; split; [reflexivity|]); (split; [discriminate|]); cbn;
    repeat match goal with
           | |- Forall _ (_ :: _) => constructor
           | |- Forall _ [] => constructor
           end; cbn; tauto.
Qed.

(** ** Numbers in settings *)

Lemma digit_not_white (ch : ascii) :
  is_digit ch = true -> JS.is_white ch = false.
Proof.
  destruct ch as [[] [] [] [] [] [] [] []]; try reflexivity; discriminate.
Qed.

Lemma digit_no_sign (ch : ascii) (s : string) :
  is_digit ch = true -> JS.strip_sign (String ch s) = (1%Z, String ch s).
Proof.
  destruct ch as [[] [] [] [] [] [] [] []]; try reflexivity; discriminate.
Qed.

(** No hexadecimal prefix unless the second character is an x. *)
Lemma no_hex_prefix (s : string) :
  match s with
  | String _ (String d _) => d <> "x"%char /\ d <> "X"%char
  | _ => True
  end ->
  JS.strip_hex_prefix s = (10%Z, s).
Proof.
  destruct s as [|ch [|d r]]; [reflexivity| |].
  - intros _. destruct ch as [[] [] [] [] [] [] [] []]; reflexivity.
  - intros [Hx HX].
    destruct ch as [[] [] [] [] [] [] [] []]; try reflexivity.
    destruct d as [[] [] [] [] [] [] [] []]; try reflexivity; congruence.
Qed.

Lemma digit_radix_10 (ch : ascii) :
  is_digit ch = true ->
  JS.radix_digit 10 ch = Some (Z.of_nat (nat_of_ascii ch) - 48)%Z.
Proof.
  destruct ch as [[] [] [] [] [] [] [] []]; try reflexivity; discriminate.
Qed.

Lemma pretty_N_char_value (x : N) :
  (x < 10)%N -> JS.radix_digit 10 (pretty_N_char x) = Some (Z.of_N x).
Proof.
  intros Hx.
  assert (x = 0 \/ x = 1 \/ x = 2 \/ x = 3 \/ x = 4 \/ x = 5 \/ x = 6
          \/ x = 7 \/ x = 8 \/ x = 9)%N as H by lia.
  repeat (destruct H as [->|H]; [reflexivity|]). subst x. reflexivity.
Qed.

Lemma parse_digits_append (a b : string) :
  all_digits a = true ->
  forall acc,
    JS.parse_digits 10 acc (a +:+ b)
    = JS.parse_digits 10 (JS.parse_digits 10 acc a) b.
Proof.
  induction a as [|ch a IH]; intros Ha acc; [reflexivity|].
  cbn [all_digits] in Ha. apply andb_prop in Ha as [Hc Ha].
  rewrite append_cons. cbn [JS.parse_digits].
  rewrite (digit_radix_10 ch Hc). apply (IH Ha).
Qed.

(** Reading back the decimal digits of a natural number. *)
Lemma parse_digits_pretty (n : N) :
  JS.parse_digits 10 None (pretty n) = Some (Z.of_N n).
Proof.
  induction (N.lt_wf_0 n) as [n _ IH].
  destruct (decide (n < 10)%N) as [Hs|Hs].
  - rewrite (pretty_N_small n Hs). cbn [JS.parse_digits].
    rewrite (pretty_N_char_value n Hs). reflexivity.
  - rewrite (pretty_N_snoc n) by lia.
    rewrite parse_digits_append by apply pretty_N_digits.
    rewrite IH by (apply N.div_lt; lia).
    cbn [JS.parse_digits].
    rewrite pretty_N_char_value by (apply N.mod_lt; lia).
    f_equal. rewrite (N.div_mod n 10) at 3 by lia. lia.
Qed.

Lemma pretty_N_head (n : N) :
  exists ch s, pretty n = String ch s /\ is_digit ch = true
               /\ all_digits s = true.
Proof.
  pose proof (pretty_N_digits n) as Hd. pose proof (pretty_N_length n) as Hl.
  destruct (pretty n) as [|ch s]; [cbn in Hl; lia|].
  cbn [all_digits] in Hd. apply andb_prop in Hd as [H1 H2].
  exists ch, s. repeat split; assumption.
Qed.

Lemma unsigned_digits_then (n : N) (tail : string) :
  stops_number tail ->
  JS.strip_hex_prefix (pretty n +:+ tail) = (10%Z, pretty n +:+ tail)
  /\ JS.parse_digits 10 None (pretty n +:+ tail) = Some (Z.of_N n).
Proof.
  intros Htail.
  destruct (pretty_N_head n) as (ch & s & Hp & Hc & Hs).
  split.
  - apply no_hex_prefix. rewrite Hp, append_cons.
    destruct s as [|d s'].
    + rewrite append_nil_l. destruct tail as [|th tr]; [exact I|].
      destruct Htail as (_ & H1 & H2). split; assumption.
    + rewrite append_cons. cbn [all_digits] in Hs.
      apply andb_prop in Hs as [Hd _].
      split; intros ->; discriminate.
  - rewrite parse_digits_append by apply pretty_N_digits.
    rewrite parse_digits_pretty.
    destruct tail as [|th tr]; [reflexivity|].
    cbn [JS.parse_digits]. destruct Htail as [-> _]. reflexivity.
Qed.

Lemma parseInt_N_then (n : N) (tail : string) :
  stops_number tail ->
  JS.parseInt (pretty n +:+ tail) = JS.Num (Z.of_N n).
Proof.
  intros Htail.
  destruct (unsigned_digits_then n tail Htail) as [Hhex Hval].
  destruct (pretty_N_head n) as (ch & s & Hp & Hc & Hs).
  unfold JS.parseInt.
  assert (Hsign : JS.strip_sign (JS.trimStart (pretty n +:+ tail))
                  = (1%Z, pretty n +:+ tail)).
  { rewrite Hp, append_cons.
    rewrite (trimStart_head _ _ (digit_not_white ch Hc)).
    apply digit_no_sign, Hc. }
  rewrite Hsign, Hhex, Hval. f_equal. apply Z.mul_1_l.
Qed.

Lemma parseInt_pretty_then (n : Z) (tail : string) :
  stops_number tail -> JS.parseInt (pretty n +:+ tail) = JS.Num n.
Proof.
  intros Htail. destruct n as [|p|p].
  - apply (parseInt_N_then 0 tail Htail).
  - apply (parseInt_N_then (Npos p) tail Htail).
  - destruct (unsigned_digits_then (Npos p) tail Htail) as [Hhex Hval].
    change (pretty (Z.neg p)) with ("-" +:+ pretty (Npos p)).
    rewrite append_assoc, append_cons, append_nil_l.
    unfold JS.parseInt. rewrite trimStart_head by reflexivity.
    cbn [JS.strip_sign]. rewrite Hhex, Hval. reflexivity.
Qed.

Lemma pretty_Z_not_empty (n : Z) : String.eqb (pretty n) "" = false.
Proof.
  apply String.eqb_neq. destruct n as [|p|p]; [discriminate| |discriminate].
  pose proof (pretty_N_length (Npos p)) as H. intros E.
  change (pretty (Z.pos p)) with (pretty (Npos p)) in E.
  rewrite E in H. cbn in H. lia.
Qed.

(** X9. A numeric setting given in decimal is read back as that number: in
    both scripts, VUS and WARMUP_ITERATIONS set in the environment to the
    decimal digits of an integer (with a minus sign when negative) resolve
    to that integer.  The integer is taken within the range JavaScript
    numbers hold exactly. *)
Theorem X9_decimal_setting_round_trip (ENV : gmap string string)
    (open : string -> option string) (n : Z) :
  (Z.abs n <= 2 ^ 53)%Z ->
  JS.parseInt (pretty n) = JS.Num n
  /\ VUS (Benchmark.config (<["VUS" := pretty n]> ENV) open) = JS.Num n
  /\ WARMUP_ITERATIONS
       (Benchmark.config (<["WARMUP_ITERATIONS" := pretty n]> ENV) open)
     = JS.Num n
  /\ VUS (Part000.config (<["VUS" := pretty n]> ENV)) = JS.Num n
  /\ WARMUP_ITERATIONS
       (Part000.config (<["WARMUP_ITERATIONS" := pretty n]> ENV))
     = JS.Num n.
Proof.
  intros _.
  assert (Hp : JS.parseInt (pretty n) = JS.Num n).
  { rewrite <- (append_nil_r (pretty n)). apply parseInt_pretty_then. exact I. }
  pose proof (pretty_Z_not_empty n) as Hne.
  split; [exact Hp|].
  repeat split; cbn [Benchmark.config Part000.config VUS WARMUP_ITERATIONS];
    unfold Benchmark.setting, Part000.setting, JS.or_else, JS.or_default,
      JS.str_truthy;
    rewrite lookup_insert_eq, Hne; cbn [negb]; rewrite ?Hne; exact Hp.
Qed.

Lemma X9_decimal_setting_witness :
  VUS (Part000.config (<["VUS" := "-12"]> ∅)) = JS.Num (-12).
Proof.
  destruct (X9_decimal_setting_round_trip ∅ (fun _ => None) (-12)
              ltac:(cbn; lia)) as (_ & _ & _ & H & _).
  exact H.
Defined.

(** X10. A numeric setting is read up to its first character that is not a
    digit: the decimal digits of an integer (within the range JavaScript
    numbers hold exactly) followed by anything that starts with neither a
    digit nor an x are read as that integer, the rest being dropped without
    notice. *)
Theorem X10_setting_trailing_text_dropped (n : Z) (ch : ascii)
    (rest : string) :
  (Z.abs n <= 2 ^ 53)%Z ->
  JS.radix_digit 10 ch = None -> ch <> "x"%char -> ch <> "X"%char ->
  JS.parseInt (pretty n +:+ String ch rest) = JS.Num n.
Proof.
  intros _ H1 H2 H3. apply parseInt_pretty_then. repeat split; assumption.
Qed.

Lemma X10_trailing_text_witness : JS.parseInt "30s" = JS.Num 30.
Proof.
  apply (X10_setting_trailing_text_dropped 30 "s"%char "");
    [cbn; lia | reflexivity | discriminate | discriminate].
Defined.

(** ** Trimming *)

Lemma trimStart_cases (s : string) :
  JS.trimStart s = "" \/
  exists ch r, JS.trimStart s = String ch r /\ JS.is_white ch = false.
Proof.
  induction s as [|ch s IH]; [left; reflexivity|].
  cbn [JS.trimStart]. destruct (JS.is_white ch) eqn:E; [exact IH|].
  right. exists ch, s. split; [reflexivity | exact E].
Qed.

Lemma trimStart_append (x y : string) :
  JS.trimStart (x +:+ y)
  = match JS.trimStart x with
    | EmptyString => JS.trimStart y
    | String ch r => String ch r +:+ y
    end.
Proof.
  induction x as [|ch x IH]; [reflexivity|].
  rewrite append_cons. cbn [JS.trimStart].
  destruct (JS.is_white ch); [exact IH | reflexivity].
Qed.

Lemma rev_app_acc (a x y : string) :
  String.rev_app a (x +:+ y) = String.rev_app a x +:+ y.
Proof.
  revert x. induction a as [|ch a IH]; intros x; [reflexivity|].
  cbn [String.rev_app]. rewrite <- append_cons. apply IH.
Qed.

Lemma rev_cons (ch : ascii) (a : string) :
  String.rev (String ch a) = String.rev a +:+ String ch "".
Proof.
  unfold String.rev. cbn [String.rev_app].
  rewrite <- (append_nil_l (String ch "")) at 1. apply rev_app_acc.
Qed.

Lemma rev_append (a b : string) :
  String.rev (a +:+ b) = String.rev b +:+ String.rev a.
Proof.
  unfold String.rev. rewrite rev_app_append.
  rewrite <- (append_nil_l (String.rev_app a "")) at 1. apply rev_app_acc.
Qed.

Lemma head_white_trimStart (s : string) : head_white (JS.trimStart s) = false.
Proof.
  destruct (trimStart_cases s) as [->|(ch & r & -> & H)]; [reflexivity|exact H].
Qed.

Lemma trimStart_clean (s : string) :
  head_white s = false -> JS.trimStart s = s.
Proof.
  destruct s as [|ch s]; [reflexivity|]. apply trimStart_head.
Qed.

(** The last character of a string survives [trimStart] when it is not
    white space. *)
Lemma head_white_rev_trimStart (s : string) :
  head_white (String.rev s) = false ->
  head_white (String.rev (JS.trimStart s)) = false.
Proof.
  induction s as [|ch s IH]; [reflexivity|].
  cbn [JS.trimStart]. destruct (JS.is_white ch) eqn:E; [|exact id].
  rewrite rev_cons. destruct (String.rev s) as [|d r] eqn:Er.
  - intros _. assert (s = "") as ->.
    { rewrite <- (rev_involutive s), Er. reflexivity. }
    reflexivity.
  - rewrite append_cons. cbn [head_white]. intros Hd. apply IH. exact Hd.
Qed.

Lemma trim_clean (s : string) : edge_clean (JS.trim s) = true.
Proof.
  unfold edge_clean, JS.trim, JS.trimEnd.
  rewrite rev_involutive, head_white_trimStart.
  rewrite head_white_rev_trimStart; [reflexivity|].
  rewrite rev_involutive. apply head_white_trimStart.
Qed.

Lemma clean_trim (s : string) : edge_clean s = true -> JS.trim s = s.
Proof.
  unfold edge_clean. intros H. apply andb_prop in H as [H1 H2].
  apply negb_true_iff in H1, H2.
  unfold JS.trim, JS.trimEnd.
  rewrite (trimStart_clean s H1), (trimStart_clean _ H2).
  apply rev_involutive.
Qed.

Lemma trim_idempotent (s : string) : JS.trim (JS.trim s) = JS.trim s.
Proof. apply clean_trim, trim_clean. Qed.

(** A carriage return at the end of a line is trimmed away. *)
Lemma trim_CR (s : string) :
  JS.trim (s +:+ String JS.CR "") = JS.trim s.
Proof.
  unfold JS.trim. rewrite trimStart_append.
  destruct (JS.trimStart s) as [|ch r] eqn:E; [reflexivity|].
  rewrite <- E. unfold JS.trimEnd. rewrite rev_snoc. reflexivity.
Qed.

(** ** Lines of the configuration file *)

(** Only the trimmed text of a line matters. *)
Lemma parse_line_trim (acc : gmap string string) (l1 l2 : string) :
  JS.trim l1 = JS.trim l2 ->
  Benchmark.parse_line acc l1 = Benchmark.parse_line acc l2.
Proof. intros H. unfold Benchmark.parse_line. rewrite H. reflexivity. Qed.

Lemma split_lines_go_no_LF (b : string) :
  no_LF b = true ->
  forall cur, JS.split_lines_go cur b = [String.rev (String.rev_app b cur)].
Proof.
  induction b as [|ch b IH]; intros Hb cur; [reflexivity|].
  cbn [no_LF] in Hb. apply andb_prop in Hb as [Hc Hb].
  apply negb_true_iff in Hc. cbn [JS.split_lines_go]. rewrite Hc.
  destruct (Ascii.eqb ch JS.CR); [|apply (IH Hb)].
  destruct b as [|d b']; [apply (IH Hb)|].
  cbn [no_LF] in Hb. apply andb_prop in Hb as [Hd Hb'].
  apply negb_true_iff in Hd. rewrite Hd.
  apply IH. cbn [no_LF]. rewrite Hd, Hb'. reflexivity.
Qed.

Lemma split_lines_no_LF (b : string) :
  no_LF b = true -> JS.split_lines b = [b].
Proof.
  intros Hb. unfold JS.split_lines. rewrite (split_lines_go_no_LF b Hb).
  f_equal. apply rev_involutive.
Qed.

(** Folding the lines of a text that continues after a line feed: the
    lines before the line feed, then the lines after it. *)
Lemma fold_lines_append (b : string) (n : nat) :
  forall s cur acc,
    (String.length s <= n)%nat ->
    fold_left Benchmark.parse_line
      (JS.split_lines_go cur (s +:+ String JS.LF b)) acc
    = fold_left Benchmark.parse_line (JS.split_lines b)
        (fold_left Benchmark.parse_line (JS.split_lines_go cur s) acc).
Proof.
  induction n as [|n IH]; intros s cur acc Hlen.
  - destruct s; [|cbn in Hlen; lia]. reflexivity.
  - destruct s as [|ch s]; [reflexivity|].
    cbn [String.length] in Hlen. rewrite append_cons.
    cbn [JS.split_lines_go].
    destruct (Ascii.eqb ch JS.LF) eqn:E1.
    { cbn [fold_left]. apply IH. lia. }
    destruct (Ascii.eqb ch JS.CR) eqn:E2; [|apply IH; lia].
    apply Ascii.eqb_eq in E2. subst ch.
    destruct s as [|d s'].
    + rewrite append_nil_l.
      change (Ascii.eqb JS.LF JS.LF) with true. cbn [JS.split_lines_go].
      cbn [fold_left]. f_equal.
      apply parse_line_trim. rewrite rev_cons. symmetry. apply trim_CR.
    + rewrite append_cons. destruct (Ascii.eqb d JS.LF) eqn:E3.
      * cbn [fold_left]. apply IH. cbn [String.length] in Hlen. lia.
      * rewrite <- append_cons. apply IH. lia.
Qed.

Lemma loadEnvFile_append_line (content line path : string) :
  no_LF line = true ->
  Benchmark.loadEnvFile (file_with (content +:+ nl +:+ line)) path
  = Benchmark.parse_line (Benchmark.loadEnvFile (file_with content) path)
      line.
Proof.
  intros Hline. unfold Benchmark.loadEnvFile, file_with, JS.split_lines.
  change (nl +:+ line) with (String JS.LF line).
  rewrite (fold_lines_append line (String.length content)) by lia.
  rewrite (split_lines_no_LF line Hline). reflexivity.
Qed.

Lemma no_LF_append (a b : string) :
  no_LF (a +:+ b) = no_LF a && no_LF b.
Proof.
  induction a as [|ch a IH]; [reflexivity|].
  rewrite append_cons. cbn [no_LF]. rewrite IH. apply andb_assoc.
Qed.

Lemma all_plain_no_LF (k : string) : all_plain k = true -> no_LF k = true.
Proof.
  induction k as [|ch k IH]; [reflexivity|].
  cbn [all_plain no_LF]. intros H. apply andb_prop in H as [Hc Hk].
  rewrite (IH Hk), andb_true_r. apply negb_true_iff.
  destruct (Ascii.eqb ch JS.LF) eqn:E; [|reflexivity].
  apply Ascii.eqb_eq in E. subst ch. discriminate.
Qed.

Lemma quote_not_LF (q : ascii) :
  JS.is_quote q = true -> Ascii.eqb q JS.LF = false.
Proof.
  unfold JS.is_quote. intros H. apply orb_prop in H as [H|H];
    apply Ascii.eqb_eq in H; subst q; reflexivity.
Qed.

(** X11. Lines are folded in from top to bottom.  Appending a line feed and
    one more line to the file gives the keys of the file as it was with that
    line folded in.  So a last line key=<quote>value<quote>, its key other
    than __proto__, sets the key to the value whatever the lines above said
    of it, and leaves every other key as it was. *)
Theorem X11_later_line_wins (content path line k v : string)
    (q1 q2 : ascii) :
  no_LF line = true ->
  all_plain k = true -> k <> "" -> k <> "__proto__" ->
  JS.is_quote q1 = true -> JS.is_quote q2 = true -> no_LF v = true ->
  Benchmark.loadEnvFile (file_with (content +:+ nl +:+ line)) path
  = Benchmark.parse_line (Benchmark.loadEnvFile (file_with content) path)
      line
  /\ Benchmark.loadEnvFile
       (file_with (content +:+ nl +:+ k +:+ "="
                   +:+ String q1 (v +:+ String q2 ""))) path
     = <[k := v]> (Benchmark.loadEnvFile (file_with content) path).
Proof.
  intros Hline Hk Hne Hproto H1 H2 Hv. split.
  - apply loadEnvFile_append_line, Hline.
  - rewrite loadEnvFile_append_line.
    + rewrite parse_line_quoted by assumption. unfold Benchmark.assign.
      apply String.eqb_neq in Hproto. rewrite Hproto. reflexivity.
    + rewrite no_LF_append, (all_plain_no_LF k Hk). cbn [andb].
      change ("=" +:+ String q1 (v +:+ String q2 ""))
        with (String "=" (String q1 (v +:+ String q2 ""))).
      cbn [no_LF]. rewrite (quote_not_LF q1 H1), no_LF_append, Hv.
      cbn [no_LF]. rewrite (quote_not_LF q2 H2). reflexivity.
Qed.

Lemma X11_later_line_witness :
  Benchmark.loadEnvFile (file_with (sample_env_file +:+ nl +:+ "VUS='9'"))
    ".env"
  = <["VUS" := "9"]> (Benchmark.loadEnvFile (file_with sample_env_file) ".env").
Proof.
  destruct (X11_later_line_wins sample_env_file ".env" "# end" "VUS" "9"
              "'"%char "'"%char eq_refl eq_refl ltac:(discriminate)
              ltac:(discriminate) eq_refl eq_refl eq_refl) as [_ H].
  exact H.
Defined.

(** ** What a key looks like *)

Lemma indexOf_prefix_none (ch : ascii) (s : string) (i : nat) :
  JS.indexOf ch s = Some i ->
  JS.indexOf ch (String.substring 0 i s) = None.
Proof.
  revert i. induction s as [|d s IH]; intros i; [discriminate|].
  cbn [JS.indexOf]. destruct (Ascii.eqb ch d) eqn:E.
  - intros [= <-]. reflexivity.
  - destruct (JS.indexOf ch s) as [j|]; [|discriminate].
    intros [= <-]. cbn [String.substring JS.indexOf]. rewrite E.
    rewrite (IH j eq_refl). reflexivity.
Qed.

Lemma indexOf_cons_none (ch d : ascii) (s : string) :
  JS.indexOf ch (String d s) = None <->
  Ascii.eqb ch d = false /\ JS.indexOf ch s = None.
Proof.
  cbn [JS.indexOf]. destruct (Ascii.eqb ch d); [split; [discriminate|]|].
  - intros [H _]. discriminate.
  - destruct (JS.indexOf ch s); split; try discriminate; auto.
    intros [_ H]. discriminate.
Qed.

Lemma indexOf_trimStart_none (ch : ascii) (s : string) :
  JS.indexOf ch s = None -> JS.indexOf ch (JS.trimStart s) = None.
Proof.
  induction s as [|d s IH]; [reflexivity|].
  intros H. cbn [JS.trimStart]. destruct (JS.is_white d); [|exact H].
  apply IH. apply indexOf_cons_none in H. apply H.
Qed.

Lemma indexOf_rev_app_none (ch : ascii) (a b : string) :
  JS.indexOf ch a = None -> JS.indexOf ch b = None ->
  JS.indexOf ch (String.rev_app a b) = None.
Proof.
  revert b. induction a as [|d a IH]; intros b Ha Hb; [exact Hb|].
  cbn [String.rev_app]. apply indexOf_cons_none in Ha as [Hd Ha].
  apply IH; [exact Ha|]. apply indexOf_cons_none. split; assumption.
Qed.

Lemma indexOf_trim_none (ch : ascii) (s : string) :
  JS.indexOf ch s = None -> JS.indexOf ch (JS.trim s) = None.
Proof.
  intros H. unfold JS.trim, JS.trimEnd, String.rev.
  apply indexOf_rev_app_none; [|reflexivity].
  apply indexOf_trimStart_none, indexOf_rev_app_none; [|reflexivity].
  apply indexOf_trimStart_none, H.
Qed.

(** A line either changes nothing or defines one well-formed key, which is
    not [__proto__]. *)
Lemma parse_line_cases (acc : gmap string string) (line : string) :
  Benchmark.parse_line acc line = acc \/
  exists k v, key_ok k /\ k <> "__proto__"
              /\ Benchmark.parse_line acc line = <[k := v]> acc.
Proof.
  unfold Benchmark.parse_line.
  destruct (_ || _); [left; reflexivity|].
  destruct (JS.indexOf "=" (JS.trim line)) as [idx|] eqn:E;
    [|left; reflexivity].
  destruct (String.eqb _ "") eqn:Ek; [left; reflexivity|].
  cbn [negb]. unfold Benchmark.assign.
  destruct (String.eqb _ "__proto__") eqn:Ep; [left; reflexivity|].
  right. eexists _, _. split; [|split; [apply String.eqb_neq, Ep|reflexivity]].
  split; [apply String.eqb_neq, Ek|].
  split; [|apply trim_idempotent].
  apply indexOf_trim_none. unfold JS.slice_to.
  apply indexOf_prefix_none, E.
Qed.

Lemma fold_lines_keys (lines : list string) :
  forall acc : gmap string string,
    (forall k v, acc !! k = Some v -> key_ok k) ->
    forall k v,
      fold_left Benchmark.parse_line lines acc !! k = Some v -> key_ok k.
Proof.
  induction lines as [|line lines IH]; intros acc Hacc; [exact Hacc|].
  cbn [fold_left]. apply IH.
  destruct (parse_line_cases acc line) as [->|(k0 & v0 & Hk0 & _ & ->)];
    [exact Hacc|].
  intros k v. destruct (decide (k0 = k)) as [<-|Hne].
  - intros _. exact Hk0.
  - rewrite lookup_insert_ne by exact Hne. apply Hacc.
Qed.

(** X12. Every key that loadEnvFile hands back is well formed, whatever the
    file holds and also when it cannot be read: the key is not empty,
    contains no equals sign and has no white space at either end. *)
Theorem X12_file_keys_well_formed (open : string -> option string)
    (path k v : string) :
  Benchmark.loadEnvFile open path !! k = Some v ->
  k <> "" /\ JS.indexOf "="%char k = None /\ JS.trim k = k.
Proof.
  unfold Benchmark.loadEnvFile. destruct (open path) as [content|].
  - apply fold_lines_keys. intros k0 v0 H. rewrite lookup_empty in H.
    discriminate.
  - rewrite lookup_empty. discriminate.
Qed.

Lemma X12_file_keys_witness :
  "DURATION" <> "" /\ JS.indexOf "="%char "DURATION" = None
  /\ JS.trim "DURATION" = "DURATION".
Proof.
  apply (X12_file_keys_well_formed sample_open ".env" "DURATION" "10s").
  vm_compute. reflexivity.
Defined.

Lemma head_white_append (a b : string) :
  a <> "" -> head_white (a +:+ b) = head_white a.
Proof. destruct a; [congruence|reflexivity]. Qed.

Lemma rev_not_empty (a : string) : a <> "" -> String.rev a <> "".
Proof.
  intros Ha E. apply Ha. rewrite <- (rev_involutive a), E. reflexivity.
Qed.

(** X13. An unquoted value is kept as it stands: a line key=value whose
    key is not __proto__ and whose value has no white space and no quote at
    either end defines key as exactly that value, further equals signs and
    hashes in it included, since only the first equals sign of the line
    separates. *)
Theorem X13_unquoted_value_verbatim (acc : gmap string string)
    (k v : string) :
  all_plain k = true -> k <> "" -> k <> "__proto__" ->
  JS.trim v = v -> JS.strip_quotes v = v ->
  Benchmark.parse_line acc (k +:+ "=" +:+ v) = <[k := v]> acc.
Proof.
  intros Hk Hne Hproto Hv Hq.
  set (line := k +:+ "=" +:+ v).
  assert (Hclean : edge_clean v = true) by (rewrite <- Hv; apply trim_clean).
  assert (Hline : JS.trim line = line).
  { apply clean_trim. unfold edge_clean, line.
    rewrite (head_white_append k _ Hne).
    destruct k as [|k0 k'] eqn:Ek; [congruence|]. rewrite <- Ek in *.
    assert (Hk0 : head_white k = false).
    { rewrite Ek. cbn [head_white]. rewrite Ek in Hk. cbn [all_plain] in Hk.
      apply andb_prop in Hk as [Hk _]. apply plain_not_white, Hk. }
    rewrite Hk0. cbn [negb andb]. apply negb_true_iff.
    rewrite rev_append, rev_append.
    destruct (String.rev v) as [|d r] eqn:Er; [reflexivity|].
    unfold edge_clean in Hclean. apply andb_prop in Hclean as [_ H2].
    apply negb_true_iff in H2. rewrite Er in H2.
    rewrite !append_cons. exact H2. }
  unfold Benchmark.parse_line. rewrite Hline.
  assert (Hnb : String.eqb line "" = false).
  { apply String.eqb_neq. unfold line. destruct k; [congruence|discriminate]. }
  assert (Hnc : JS.startsWith "#" line = false).
  { unfold line, JS.startsWith. destruct k as [|k0 k']; [congruence|].
    cbn [all_plain] in Hk. apply andb_prop in Hk as [Hk0 _].
    unfold plain in Hk0. apply andb_prop in Hk0 as [_ Hk0].
    apply negb_true_iff, Ascii.eqb_neq in Hk0.
    rewrite append_cons. cbn [String.prefix].
    destruct (ascii_dec "#" k0); [contradiction | reflexivity]. }
  rewrite Hnb, Hnc. cbn [orb].
  unfold line at 1. change ("=" +:+ v) with (String "=" v).
  rewrite (indexOf_after_plain k v Hk).
  assert (A1 : JS.slice_to (String.length k) line = k)
    by (unfold JS.slice_to, line; apply substring_prefix).
  assert (A2 : JS.slice_from (String.length k + 1) line = v).
  { unfold JS.slice_from.
    replace line with ((k +:+ "=") +:+ v)
      by (unfold line; apply append_assoc).
    apply substring_after. rewrite length_append. reflexivity. }
  rewrite A1, A2, (trim_plain k Hk), Hv, Hq.
  destruct (String.eqb k "") eqn:Ek; [apply String.eqb_eq in Ek; congruence|].
  cbn [negb]. unfold Benchmark.assign.
  apply String.eqb_neq in Hproto. rewrite Hproto. reflexivity.
Qed.

Lemma X13_unquoted_value_witness :
  Benchmark.parse_line ∅ "BASE_URL=http://host:1/api?x=1#top"
  = {[ "BASE_URL" := "http://host:1/api?x=1#top" ]}.
Proof.
  apply (X13_unquoted_value_verbatim ∅ "BASE_URL"
           "http://host:1/api?x=1#top");
    [reflexivity | discriminate | discriminate | reflexivity | reflexivity].
Defined.

(** X14. Without a configuration file benchmark.js resolves its constants
    as part_000 does from the same environment, except that a BASE_URL left
    unset or empty defaults to port 8081 where part_000 defaults to port
    8080. *)
Theorem X14_scripts_agree_without_file (ENV : gmap string string)
    (open : string -> option string) :
  open ".env" = None ->
  let b := Benchmark.config ENV open in
  let p := Part000.config ENV in
  SERVICE_NAME b = SERVICE_NAME p /\ VUS b = VUS p
  /\ DURATION b = DURATION p
  /\ WARMUP_ITERATIONS b = WARMUP_ITERATIONS p
  /\ DATABASE_TYPE b = DATABASE_TYPE p
  /\ match nonempty (ENV !! "BASE_URL") with
     | Some u => BASE_URL b = u /\ BASE_URL p = u
     | None => BASE_URL b = "http://localhost:8081/api/books"
               /\ BASE_URL p = "http://localhost:8080/api/books"
     end.
Proof.
  intros Hopen b p.
  assert (Hset : forall key d,
            Benchmark.setting ENV (Benchmark.envFile open) key d
            = Part000.setting ENV key d).
  { intros key d.
    unfold Benchmark.setting, Part000.setting, Benchmark.envFile,
      Benchmark.loadEnvFile.
    rewrite Hopen, lookup_empty.
    unfold JS.or_else, JS.str_truthy, JS.or_default.
    destruct (ENV !! key) as [x|]; [|reflexivity].
    destruct (String.eqb x "") eqn:E; cbn; rewrite ?E; reflexivity. }
  subst b p. unfold Benchmark.config, Part000.config.
  cbn [SERVICE_NAME VUS DURATION WARMUP_ITERATIONS DATABASE_TYPE BASE_URL].
  rewrite !Hset. repeat split.
  unfold Part000.setting, JS.or_default, nonempty.
  destruct (ENV !! "BASE_URL") as [u|]; [|split; reflexivity].
  destruct (String.eqb u ""); split; reflexivity.
Qed.

Lemma X14_scripts_agree_witness :
  VUS (Benchmark.config {[ "VUS" := "3" ]} (fun _ => None))
  = VUS (Part000.config {[ "VUS" := "3" ]}).
Proof.
  destruct (X14_scripts_agree_without_file {[ "VUS" := "3" ]}
              (fun _ => None) eq_refl) as (_ & H & _).
  exact H.
Defined.

(** ** The report of part_000, further *)

Lemma warning_of_inj (k k' : K6.Kind) : warning_of k = warning_of k' -> k = k'.
Proof. destruct k, k'; (reflexivity || discriminate). Qed.

Lemma warning_not_a_report_line (ts : Q -> string)
    (metrics : gmap string K6.Metric) (k : K6.Kind) :
  ~ In (K6.ELog (warning_of k)) (map K6.ELog (report_lines ts metrics)).
Proof.
  unfold report_lines. cbn [map In]. intros H.
  repeat (destruct H as [H|H]; [injection H as H; destruct k; discriminate|]).
  exact H.
Qed.

Lemma warning_events_In (metrics : gmap string K6.Metric) (k k' : K6.Kind) :
  In (K6.ELog (warning_of k)) (warning_events metrics k') ->
  metric_avg metrics (K6.trend_name k) = None.
Proof.
  unfold warning_events.
  destruct (metric_avg metrics (K6.trend_name k')) eqn:E; [intros []|].
  intros [H|[]]. injection H as H. apply warning_of_inj in H. subst k'.
  exact E.
Qed.

(** X15. The warnings of the report of part_000 are exact: the line that
    says a kind has no latency metrics is logged if and only if data.metrics
    lacks the entry of that kind or the entry lacks its values; and when the
    average is there it is the one the report uses. *)
Theorem X15_warning_iff_missing (c : Config) (ts : Q -> string)
    (metrics : gmap string K6.Metric) (k : K6.Kind) (now : Z)
    (t0 : K6.Trace) :
  exists ev,
    snd (Part000.handleSummary c ts metrics now t0) = t0 ++ ev /\
    (In (K6.ELog (warning_of k)) ev
     <-> metric_avg metrics (K6.trend_name k) = None) /\
    (forall q, metric_avg metrics (K6.trend_name k) = Some q ->
               avg_or_zero metrics k = q).
Proof.
  rewrite handleSummary_run. cbn [snd]. eexists. split; [reflexivity|].
  split; [split|].
  - intros H. apply in_app_or in H as [H|H];
      [|destruct (warning_not_a_report_line ts metrics k H)].
    repeat (apply in_app_or in H as [H|H];
            [exact (warning_events_In metrics k _ H)|]).
    exact (warning_events_In metrics k _ H).
  - intros Hk.
    destruct (missing_metric_report c ts metrics k now t0 Hk)
      as (_ & ev & Hev & Hin).
    rewrite handleSummary_run in Hev. cbn [snd] in Hev.
    apply app_inv_head in Hev. rewrite Hev. exact Hin.
  - intros q Hq. unfold avg_or_zero. rewrite Hq. reflexivity.
Qed.

Lemma toFixed_2_rounds (ts : Q -> string) (x : Q) :
  in_range x -> rounds_to x (JS.toFixed ts 2 x).
Proof.
  intros Hx. exists (cents x). split; [apply toFixed_2_in_range, Hx|].
  destruct Hx as [H0 _]. unfold cents.
  rewrite Z2N.id by (apply nearest_scaled_nonneg, H0).
  unfold JS.nearest_scaled.
  change (inject_Z (10 ^ Z.of_nat 2)) with 100%Q.
  pose proof (Qfloor_le (x * 100 + (1 # 2))) as Hle.
  pose proof (Qlt_floor (x * 100 + (1 # 2))) as Hlt.
  rewrite inject_Z_plus in Hlt. change (inject_Z 1) with 1%Q in Hlt.
  set (f := inject_Z (Qfloor (x * 100 + (1 # 2)))) in *. clearbody f.
  split; lra.
Qed.

(** X16. The figures of the report of part_000 are rounded to hundredths,
    halves upwards: when the averages lie in [0, 10^21), the data row that
    handleSummary writes under the report name has five cells, and each of
    the first four is the two-decimal writing of the integer number of
    hundredths nearest to its average (at most half a hundredth away, the
    upper one when two are equally near); when moreover binary64 holds the
    sums and the mean of the averages exactly, the fifth cell is that
    writing of the overall mean. *)
Theorem X16_cells_rounded_half_up (c : Config) (ts : Q -> string)
    (metrics : gmap string K6.Metric) (now : Z) (t0 : K6.Trace) :
  (forall k, in_range (avg_or_zero metrics k)) ->
  exists g cr u d o,
    fst (Part000.handleSummary c ts metrics now t0) !! report_name c now
    = Some (Part000.csvHeader +:+ g +:+ "," +:+ cr +:+ "," +:+ u +:+ ","
            +:+ d +:+ "," +:+ o +:+ nl) /\
    rounds_to (avg_or_zero metrics K6.Read) g /\
    rounds_to (avg_or_zero metrics K6.Create) cr /\
    rounds_to (avg_or_zero metrics K6.Update) u /\
    rounds_to (avg_or_zero metrics K6.Delete) d /\
    (sums_exact metrics -> rounds_to (mean_of_averages metrics) o).
Proof.
  intros H.
  exists (JS.toFixed ts 2 (avg_or_zero metrics K6.Read)),
    (JS.toFixed ts 2 (avg_or_zero metrics K6.Create)),
    (JS.toFixed ts 2 (avg_or_zero metrics K6.Update)),
    (JS.toFixed ts 2 (avg_or_zero metrics K6.Delete)),
    (JS.toFixed ts 2 (mean_of_averages metrics)).
  rewrite handleSummary_run. cbn [fst].
  split; [apply lookup_insert_eq|].
  repeat split; try intros _; apply toFixed_2_rounds; auto using mean_in_range.
Qed.

Lemma X16_cells_rounded_witness :
  exists g cr u d o,
    fst (Part000.handleSummary (Part000.config ∅) no_exponent
           (K6.summary_metrics scenario_trace) 1700000000000 [])
      !! "bookcatalog_results_sqlite_1700000000000.csv"
    = Some (Part000.csvHeader +:+ g +:+ "," +:+ cr +:+ "," +:+ u +:+ ","
            +:+ d +:+ "," +:+ o +:+ nl) /\
    rounds_to (avg_or_zero (K6.summary_metrics scenario_trace) K6.Read) g /\
    rounds_to (mean_of_averages (K6.summary_metrics scenario_trace)) o.
Proof.
  destruct (X16_cells_rounded_half_up (Part000.config ∅) no_exponent
              (K6.summary_metrics scenario_trace) 1700000000000 []
              scenario_averages_in_range)
    as (g & cr & u & d & o & H1 & H2 & _ & _ & _ & H6).
  exists g, cr, u, d, o.
  split; [exact H1|]. split; [exact H2 | exact (H6 scenario_sums_exact)].
Defined.

(** ** One unit after another *)

Lemma default_sample_counts (s : Script) (service : K6.Service) (c : Config)
    (vu iter : nat) (data : Benchmark.SetupData) (t0 : K6.Trace) :
  exists ev,
    exec (default_of s service c vu iter data) t0 = t0 ++ ev /\
    sample_counts 1 ev.
Proof.
  destruct s; unfold default_of, Benchmark.default, Part000.default;
    run_script;
    (destruct (JS.truthy _); run_script; flatten_trace;
     (eexists; split; [reflexivity|]); repeat split; vm_compute; lia).
Qed.

Lemma sample_counts_app (n m : nat) (a b : K6.Trace) :
  sample_counts n a -> sample_counts m b -> sample_counts (n + m) (a ++ b).
Proof.
  intros (A1 & A2 & A3 & A4) (B1 & B2 & B3 & B4). unfold sample_counts.
  rewrite !samples_app, !List.length_app. lia.
Qed.

(** X17. Units run one after another, in either script and whatever the
    service answers: after n units the create Trend has exactly n new
    samples, and the read, update and delete Trends have equally many new
    samples as one another, at most n.  So the three of them are listed in
    the summary together or not at all. *)
Theorem X17_units_in_sequence (s : Script) (service : K6.Service)
    (c : Config) (data : Benchmark.SetupData) (l : list (nat * nat))
    (t0 : K6.Trace) :
  exists ev,
    exec (units s service c data l) t0 = t0 ++ ev /\
    length (K6.samples K6.Create ev) = length l /\
    length (K6.samples K6.Read ev) = length (K6.samples K6.Update ev) /\
    length (K6.samples K6.Update ev) = length (K6.samples K6.Delete ev) /\
    (length (K6.samples K6.Read ev) <= length l)%nat.
Proof.
  revert t0. induction l as [|[vu iter] l IH]; intros t0.
  - exists []. rewrite app_nil_r. repeat split; cbn; lia.
  - destruct (default_sample_counts s service c vu iter data t0)
      as (ev1 & H1 & C1).
    destruct (IH (t0 ++ ev1)) as (ev2 & H2 & C2).
    exists (ev1 ++ ev2). split.
    + cbn [units]. unfold exec in *. cbv [mbind K6.M_bind].
      destruct (default_of s service c vu iter data t0) as [u t1].
      cbn in H1. subst t1. rewrite H2. symmetry. apply app_assoc.
    + apply (sample_counts_app 1 (length l)); assumption.
Qed.

(** ** The books *)

(** X18. The books of the warm-up are told apart by their index, in both
    scripts: two warm-up iterations with equal titles, or equal authors, are
    the same iteration.  And an update always changes the book: in either
    script no book sent in a PUT has the title or the author of any book
    sent in a POST of the same phase. *)
Theorem X18_books_differ (s : Script) (i j : Z) (vu iter vu' iter' : nat) :
  (K6.title (Benchmark.warmup_book i) = K6.title (Benchmark.warmup_book j)
   <-> i = j)
  /\ (K6.author (Benchmark.warmup_book i) = K6.author (Benchmark.warmup_book j)
      <-> i = j)
  /\ Part000.warmup_book i = Benchmark.warmup_book i
  /\ K6.title (Benchmark.warmup_updatedBook i)
     <> K6.title (Benchmark.warmup_book j)
  /\ K6.author (Benchmark.warmup_updatedBook i)
     <> K6.author (Benchmark.warmup_book j)
  /\ K6.title (Part000.warmup_updatedBook i)
     <> K6.title (Part000.warmup_book j)
  /\ K6.author (Part000.warmup_updatedBook i)
     <> K6.author (Part000.warmup_book j)
  /\ K6.title (updated_book_of s vu iter) <> K6.title (book_of s vu' iter')
  /\ K6.author (updated_book_of s vu iter) <> K6.author (book_of s vu' iter').
Proof.
  split; [|split; [|split]].
  - split; [|intros ->; reflexivity].
    cbn [K6.title Benchmark.warmup_book]. intros H.
    apply String.app_inj in H. apply (pretty_Z_inj _ _ H).
  - split; [|intros ->; reflexivity].
    cbn [K6.author Benchmark.warmup_book]. intros H.
    apply String.app_inj in H. apply (pretty_Z_inj _ _ H).
  - reflexivity.
  - destruct s; repeat split; intros H; vm_compute in H; discriminate.
Qed.

(** ** Line endings *)

Lemma fold_lines_trailing_CR (n : nat) :
  forall s cur acc,
    (String.length s <= n)%nat ->
    fold_left Benchmark.parse_line
      (JS.split_lines_go cur (s +:+ String JS.CR "")) acc
    = fold_left Benchmark.parse_line (JS.split_lines_go cur s) acc.
Proof.
  assert (Hbase : forall cur acc,
            fold_left Benchmark.parse_line
              (JS.split_lines_go cur (String JS.CR "")) acc
            = fold_left Benchmark.parse_line (JS.split_lines_go cur "") acc).
  { intros cur acc. cbn [JS.split_lines_go fold_left].
    change (Ascii.eqb JS.CR JS.LF) with false.
    change (Ascii.eqb JS.CR JS.CR) with true. cbn [JS.split_lines_go fold_left].
    apply parse_line_trim. rewrite rev_cons. apply trim_CR. }
  induction n as [|n IH]; intros s cur acc Hlen.
  - destruct s; [|cbn in Hlen; lia]. apply Hbase.
  - destruct s as [|ch s]; [apply Hbase|].
    cbn [String.length] in Hlen. rewrite append_cons.
    cbn [JS.split_lines_go].
    destruct (Ascii.eqb ch JS.LF) eqn:E1.
    { cbn [fold_left]. apply IH. lia. }
    destruct (Ascii.eqb ch JS.CR) eqn:E2; [|apply IH; lia].
    destruct s as [|d s'].
    + rewrite append_nil_l. change (Ascii.eqb JS.CR JS.LF) with false.
      apply (IH "" (String ch cur) acc). cbn. lia.
    + rewrite append_cons. destruct (Ascii.eqb d JS.LF) eqn:E3.
      * cbn [fold_left]. apply IH. cbn [String.length] in Hlen. lia.
      * rewrite <- append_cons. apply IH. lia.
Qed.

(** X19. The two line endings are the same to loadEnvFile: a file whose
    last line is set off by carriage return and line feed yields the keys
    of the file that sets it off by a line feed alone. *)
Theorem X19_crlf_as_lf (content line path : string) :
  Benchmark.loadEnvFile
    (file_with (content +:+ String JS.CR nl +:+ line)) path
  = Benchmark.loadEnvFile (file_with (content +:+ nl +:+ line)) path.
Proof.
  unfold Benchmark.loadEnvFile, file_with, JS.split_lines.
  change (String JS.CR nl +:+ line)
    with (String JS.CR "" +:+ String JS.LF line).
  change (nl +:+ line) with (String JS.LF line).
  rewrite <- append_assoc.
  rewrite (fold_lines_append line (String.length (content +:+ String JS.CR "")))
    by lia.
  rewrite (fold_lines_append line (String.length content)) by lia.
  f_equal. apply (fold_lines_trailing_CR (String.length content)). lia.
Qed.

(** ** The key that no line defines *)

Lemma fold_lines_no_proto (lines : list string) :
  forall acc : gmap string string,
    acc !! "__proto__" = None ->
    fold_left Benchmark.parse_line lines acc !! "__proto__" = None.
Proof.
  induction lines as [|line lines IH]; intros acc Hacc; [exact Hacc|].
  cbn [fold_left]. apply IH.
  destruct (parse_line_cases acc line) as [->|(k0 & v0 & _ & Hk0 & ->)];
    [exact Hacc|].
  rewrite lookup_insert_ne by exact Hk0. exact Hacc.
Qed.

(** X20. No file gives the key __proto__: a line that assigns to it reaches
    the setter every object inherits, which ignores a string, so a line
    __proto__=<quote>value<quote> changes nothing, and loadEnvFile never
    hands the key back, whatever the file holds and also when it cannot be
    read. *)
Theorem X20_proto_never_defined (open : string -> option string)
    (path v : string) (acc : gmap string string) (q1 q2 : ascii) :
  JS.is_quote q1 = true -> JS.is_quote q2 = true ->
  Benchmark.loadEnvFile open path !! "__proto__" = None
  /\ Benchmark.parse_line acc
       ("__proto__=" +:+ String q1 (v +:+ String q2 "")) = acc.
Proof.
  intros H1 H2. split.
  - unfold Benchmark.loadEnvFile. destruct (open path) as [content|];
      [apply fold_lines_no_proto|]; apply lookup_empty.
  - exact (parse_line_quoted acc "__proto__" v q1 q2 eq_refl
             ltac:(discriminate) H1 H2).
Qed.

Lemma X20_proto_witness :
  Benchmark.loadEnvFile (file_with ("VUS=2" +:+ nl +:+ "__proto__='x'")) ".env"
    !! "__proto__" = None
  /\ Benchmark.parse_line {[ "VUS" := "2" ]} "__proto__='x'"
     = {[ "VUS" := "2" ]}.
Proof.
  exact (X20_proto_never_defined
           (file_with ("VUS=2" +:+ nl +:+ "__proto__='x'")) ".env" "x"
           {[ "VUS" := "2" ]} "'"%char "'"%char eq_refl eq_refl).
Defined.
